(** * Voice-to-app conversation engine: a shallow embedding

    The development follows three source files of the repository:

    - [src/app/api/voice/conversation/route.ts]: the conversation store and
      its four handlers ([Module Conversation]);
    - the stateless requirements endpoint with
      [analyzeTranscriptForRequirements] and [generateConversationResponse]
      ([Module Requirements]);
    - the template generator of the front page, [generateAppName] and
      [generateWebFiles] ([Module Generator]).

    JavaScript strings are embedded as [string], one character per code
    unit; the library functions the code calls on them ([toLowerCase],
    [includes], [split], [slice], ...) are collected in [Module JS].  The
    embedding covers ASCII text: case mapping is the one of the letters
    [A]-[Z] and [a]-[z], and every keyword of the program is ASCII.

    Where the text of the user decides the result (the name of the
    application, the blank idea, the download that [btoa] encodes) strings
    are lists of UTF-16 code units and the built-in case mappings and
    [trim] are parameters ([Module Text], [Module Page]).

    The handlers are embedded at the parameter types they declare, and a
    request is handled to its end before the next one starts. *)

From Stdlib Require Import Ascii String QArith.
From stdpp Require Import gmap strings list fin_maps pretty.

(** ** The JavaScript string and array functions the program uses *)
Module JS.

Definition is_upper (c : ascii) : bool :=
  let n := Ascii.nat_of_ascii c in (65 <=? n)%nat && (n <=? 90)%nat.

Definition is_lower (c : ascii) : bool :=
  let n := Ascii.nat_of_ascii c in (97 <=? n)%nat && (n <=? 122)%nat.

Definition lower_char (c : ascii) : ascii :=
  if is_upper c then Ascii.ascii_of_nat (Ascii.nat_of_ascii c + 32) else c.

Definition upper_char (c : ascii) : ascii :=
  if is_lower c then Ascii.ascii_of_nat (Ascii.nat_of_ascii c - 32) else c.

(** [s.toLowerCase()] *)
Fixpoint toLowerCase (s : string) : string :=
  match s with
  | EmptyString => EmptyString
  | String c r => String (lower_char c) (toLowerCase r)
  end.

(** [s.toUpperCase()] *)
Fixpoint toUpperCase (s : string) : string :=
  match s with
  | EmptyString => EmptyString
  | String c r => String (upper_char c) (toUpperCase r)
  end.

(** [s.startsWith(p)], the test [includes] repeats at every offset. *)
Fixpoint startsWith (s p : string) : bool :=
  match p, s with
  | EmptyString, _ => true
  | String _ _, EmptyString => false
  | String a p', String b s' => bool_decide (a = b) && startsWith s' p'
  end.

(** [s.includes(k)]: [k] occurs in [s] as a contiguous substring. *)
Fixpoint includes (s k : string) : bool :=
  startsWith s k ||
  match s with
  | EmptyString => false
  | String _ r => includes r k
  end.

(** [s.length] *)
Definition length (s : string) : nat := String.length s.

(** [s.charAt(i)]: the one-character string at [i], or the empty string
    when [i] is out of range. *)
Definition charAt (s : string) (i : nat) : string :=
  match String.get i s with
  | Some c => String c EmptyString
  | None => EmptyString
  end.

(** [s.slice(i)] for a non-negative [i]. *)
Fixpoint slice_from (s : string) (i : nat) {struct i} : string :=
  match i with
  | O => s
  | S i' =>
      match s with
      | EmptyString => EmptyString
      | String _ r => slice_from r i'
      end
  end.

(** [s.split(' ')]: the pieces between single spaces; consecutive spaces
    give empty pieces and the empty string gives one empty piece. *)
Fixpoint split_go (cur : string) (s : string) : list string :=
  match s with
  | EmptyString => [String.rev cur]
  | String c r =>
      if bool_decide (c = " "%char)
      then String.rev cur :: split_go EmptyString r
      else split_go (String c cur) r
  end.

Definition split_space (s : string) : list string := split_go EmptyString s.

(** [a.join(sep)] *)
Fixpoint join (sep : string) (a : list string) : string :=
  match a with
  | [] => EmptyString
  | [x] => x
  | x :: rest => x +:+ sep +:+ join sep rest
  end.

(** [a.slice(0, n)] on arrays. *)
Definition slice0 {A} (a : list A) (n : nat) : list A := take n a.

(** [a.includes(x)] on arrays of strings. *)
Definition array_includes (a : list string) (x : string) : bool :=
  bool_decide (x ∈ a).

(** [a.some(p)] *)
Definition some {A} (p : A → bool) (a : list A) : bool := existsb p a.

(** A [Set] of strings keeps its elements in insertion order and ignores
    the insertion of an element it already holds. *)
Definition Set_add (s : list string) (x : string) : list string :=
  if bool_decide (x ∈ s) then s else s ++ [x].

(** [[...new Set(a)]] *)
Definition new_Set (a : list string) : list string := foldl Set_add [] a.

(** [s] includes none of the keywords [kws]. *)
Definition mentions_none (s : string) (kws : list string) : Prop :=
  Forall (λ k, includes s k = false) kws.

#[global] Instance mentions_none_dec s kws : Decision (mentions_none s kws).
Proof. unfold mentions_none. apply _. Defined.

End JS.

(** ** The stateless requirements endpoint *)
Module Requirements.

Inductive UiStyle := modern | minimalist | corporate.
Inductive Complexity := basic | intermediate | advanced.

Record TechnicalRequirements := {
  database : bool;
  authentication : bool;
  externalApis : list string
}.

Record RequirementsAnalysis := {
  platforms : list string;
  coreFeatures : list string;
  uiStyle : UiStyle;
  complexity : Complexity;
  technicalRequirements : TechnicalRequirements
}.

(** The value [analyzeTranscriptForRequirements] returns.  [confidence] is
    a JavaScript number; the finite doubles are rationals and are compared
    as such. *)
Record Analysis := {
  requirements : RequirementsAnalysis;
  confidence : Q
}.

Inductive ResponseType := clarification | confirmation | completion.

Record ConversationResponse := {
  type : ResponseType;
  message : string;
  questions : option (list string)
}.

(** [Object.entries(featureKeywords)], in the order the literal is
    written. *)
Definition featureKeywords : list (string * list string) :=
  [ ("todo", ["task management"; "reminders"; "categories"; "due dates"]);
    ("recipe", ["ingredients"; "cooking instructions"; "shopping lists"; "meal planning"]);
    ("fitness", ["workouts"; "exercise tracking"; "progress charts"; "health data"]);
    ("budget", ["expense tracking"; "categories"; "spending analysis"; "reports"]);
    ("social", ["user profiles"; "posts"; "comments"; "likes"; "sharing"]);
    ("habit", ["daily tracking"; "streaks"; "reminders"; "progress visualization"]);
    ("meditation", ["guided sessions"; "timer"; "progress tracking"; "calming sounds"]);
    ("language", ["flashcards"; "lessons"; "progress tracking"; "quizzes"]) ].

(** [arr.push(x)] guarded by [if (c)]. *)
Definition push_if (c : bool) (x : string) (arr : list string) : list string :=
  if c then arr ++ [x] else arr.

(** The [for ... of Object.entries(featureKeywords)] loop. *)
Definition collectFeatures (lowerTranscript : string) : list string :=
  foldl (λ coreFeatures '(keyword, features),
           if JS.includes lowerTranscript keyword
           then coreFeatures ++ features
           else coreFeatures)
        [] featureKeywords.

Definition genericFeatures : list string :=
  ["user interface"; "data management"; "responsive design"].

(** [analyzeTranscriptForRequirements(transcript, history)].  [rnd] is the
    number [Math.random() * 0.3 + 0.7] evaluates to in this call. *)
Definition analyzeTranscriptForRequirements
    (transcript : string) (history : list (string * string)) (rnd : Q) : Analysis :=
  let lowerTranscript := JS.toLowerCase transcript in
  let inc := JS.includes lowerTranscript in
  let platforms := [] in
  let platforms := push_if (inc "web" || inc "website") "web" platforms in
  let platforms := push_if (inc "android" || inc "mobile") "android" platforms in
  let platforms := push_if (inc "ios" || inc "iphone") "ios" platforms in
  let platforms := push_if (Nat.eqb (List.length platforms) 0) "web" platforms in
  let coreFeatures := collectFeatures lowerTranscript in
  let coreFeatures :=
    if Nat.eqb (List.length coreFeatures) 0 then genericFeatures else coreFeatures in
  let uiStyle := modern in
  let uiStyle := if inc "minimalist" || inc "simple" then minimalist else uiStyle in
  let uiStyle := if inc "corporate" || inc "professional" then corporate else uiStyle in
  let complexity := intermediate in
  let complexity := if inc "simple" || inc "basic" then basic else complexity in
  let complexity := if inc "complex" || inc "advanced" then advanced else complexity in
  let needsDatabase := inc "data" || inc "storage" || inc "save" || inc "sync" in
  let needsAuth := inc "login" || inc "user" || inc "account" || inc "profile" in
  let externalApis := [] in
  let externalApis := push_if (inc "payment") "payment processing" externalApis in
  let externalApis := push_if (inc "map" || inc "location") "maps/geolocation" externalApis in
  let externalApis := push_if (inc "notification") "push notifications" externalApis in
  let externalApis := push_if (inc "social" || inc "share") "social media" externalApis in
  {| requirements :=
       {| platforms := platforms;
          coreFeatures := JS.slice0 (JS.new_Set coreFeatures) 5;
          uiStyle := uiStyle;
          complexity := complexity;
          technicalRequirements :=
            {| database := needsDatabase;
               authentication := needsAuth;
               externalApis := externalApis |} |};
     confidence := rnd |}.

(** The literal [0.8]: the double it denotes,
    [0x3FE999999999999A = 3602879701896397 / 2^52]. *)
Definition num_0_8 : Q := 3602879701896397 # 4503599627370496.

(** [a < b] and [a >= b] on numbers. *)
Definition num_lt (a b : Q) : bool :=
  match (a ?= b)%Q with Lt => true | _ => false end.
Definition num_ge (a b : Q) : bool :=
  match (a ?= b)%Q with Lt => false | _ => true end.

Definition show_complexity (c : Complexity) : string :=
  match c with
  | basic => "basic" | intermediate => "intermediate" | advanced => "advanced"
  end.

Definition show_uiStyle (u : UiStyle) : string :=
  match u with
  | modern => "modern" | minimalist => "minimalist" | corporate => "corporate"
  end.

(** [generateConversationResponse(analysis, currentState)] *)
Definition generateConversationResponse
    (analysis : Analysis) (currentState : string) : ConversationResponse :=
  let requirements := requirements analysis in
  let confidence := confidence analysis in
  if num_lt confidence num_0_8 then
    {| type := clarification;
       message := "I want to make sure I understand your requirements correctly. Could you provide more details about what you'd like your app to do?";
       questions := Some
         [ "What specific features are most important to you?";
           "Which platforms do you need the app to work on?";
           "Do you need user accounts or data storage?" ] |}
  else if Nat.eqb (List.length (platforms requirements)) 0 then
    {| type := clarification;
       message := "I'd like to know which platforms you need your app to support.";
       questions := Some
         [ "Do you need a web app, mobile app, or both?";
           "Should it work on iOS, Android, or both?" ] |}
  else if (3 <=? List.length (coreFeatures requirements))%nat
          && num_ge confidence num_0_8 then
    {| type := confirmation;
       message :=
         "Great! I understand you want to create a "
         +:+ show_complexity (complexity requirements) +:+ " "
         +:+ show_uiStyle (uiStyle requirements) +:+ "-style app for "
         +:+ JS.join ", " (platforms requirements)
         +:+ " with features like "
         +:+ JS.join ", " (JS.slice0 (coreFeatures requirements) 3)
         +:+ ". Does this sound correct?";
       questions := Some
         [ "Are these the main features you want?";
           "Would you like to add any other features?";
           "Should I proceed with generating the app?" ] |}
  else
    {| type := clarification;
       message := "I'm getting a good understanding of what you want. To make sure I create the perfect app for you, could you tell me more about:";
       questions := Some
         [ "What's the primary goal of your app?";
           "Who are the main users?";
           "Are there any specific features you definitely want to include?" ] |}.

(** The request body; an absent [currentState] is [None]. *)
Record ProcessRequirementsRequest := {
  transcript : string;
  history : list (string * string);
  currentState : option string;
  previousRequirements : option RequirementsAnalysis
}.

(** The JSON body of the 200 response. *)
Record ProcessRequirementsResponse := {
  resp_requirements : RequirementsAnalysis;
  conversationResponse : ConversationResponse;
  nextState : string
}.

Definition is_completion (t : ResponseType) : bool :=
  match t with completion => true | _ => false end.

(** [POST(request)] on a body of the declared type.  The 500 ms delay has
    no effect on the result; [rnd] is the draw of the confidence. *)
Definition POST (body : ProcessRequirementsRequest) (rnd : Q)
    : ProcessRequirementsResponse :=
  let transcript := transcript body in
  let history := history body in
  let currentState := default "gathering_requirements" (currentState body) in
  let analysis := analyzeTranscriptForRequirements transcript history rnd in
  let response := generateConversationResponse analysis currentState in
  {| resp_requirements := requirements analysis;
     conversationResponse := response;
     nextState := if is_completion (type response) then "complete" else currentState |}.

#[local] Instance Qle_decision (x y : Q) : Decision (x <= y)%Q :=
  match Qlt_le_dec y x with
  | left H => right (Qlt_not_le _ _ H)
  | right H => left H
  end.

(** The response selector in the words of the interface description:
    confidence below 0.8 gives a clarification; so do empty platforms; at
    least three features with confidence at least 0.8 give a confirmation;
    everything else is a clarification. *)
Definition selector_spec
    (conf : Q) (plats feats : list string) : ResponseType :=
  if Qlt_le_dec conf num_0_8 then clarification
  else if decide (plats = []) then clarification
  else if decide (3 ≤ List.length feats ∧ (num_0_8 <= conf)%Q) then confirmation
  else clarification.

(** The substrings the platform tests look for. *)
Definition platformKeywords : list string :=
  ["web"; "website"; "android"; "mobile"; "ios"; "iphone"].

(** The keys of [featureKeywords]. *)
Definition domainKeywords : list string := featureKeywords.*1.

End Requirements.

(** ** The template generator of the front page *)
Module Generator.

(** The generated contents are fixed template literals with [appName]
    spliced in; a content is recorded as the template it instantiates and
    the name it was instantiated with. *)
Inductive Content :=
| WebTodoPage (appName : string)     (* the [if (isTodoApp)] page *)
| WebListPage (appName : string)     (* the [else] page *)
| PackageJson (appName : string)
| NextConfigJs
| VercelJson.

Record GeneratedFile := {
  filename : string;
  content : Content;
  path : string
}.

Definition stopWords : list string :=
  ["with"; "that"; "for"; "and"; "the"; "app"; "application"].

(** [generateAppName(idea)] *)
Definition generateAppName (idea : string) : string :=
  let keywords := JS.split_space (JS.toLowerCase idea) in
  let nameWords :=
    JS.slice0
      (List.filter
         (λ word, (3 <? JS.length word)%nat
                  && negb (JS.array_includes stopWords word))
         keywords)
      2 in
  if Nat.eqb (List.length nameWords) 0 then "MyApp"
  else
    JS.join ""
      (List.map
         (λ word, JS.toUpperCase (JS.charAt word 0) +:+ JS.slice_from word 1)
         nameWords).

(** [generateWebFiles(idea, appName)] *)
Definition generateWebFiles (idea appName : string) : list GeneratedFile :=
  let isTodoApp := JS.includes (JS.toLowerCase idea) "todo" in
  let appCode := if isTodoApp then WebTodoPage appName else WebListPage appName in
  [ {| filename := "pages/index.js"; content := appCode; path := "/" |};
    {| filename := "package.json"; content := PackageJson appName; path := "/" |};
    {| filename := "next.config.js"; content := NextConfigJs; path := "/" |};
    {| filename := "vercel.json"; content := VercelJson; path := "/" |} ].

Definition capitalize (w : string) : string :=
  match w with
  | EmptyString => EmptyString
  | String c r => String (JS.upper_char c) r
  end.

End Generator.

(** ** The conversation route: store, handlers and state machine *)
Module Conversation.

Inductive Role := user | assistant.

Inductive Step :=
| greeting | requirement_gathering | clarification | confirmation | completion.

#[global] Instance Role_eq_dec : EqDecision Role.
Proof. solve_decision. Defined.

#[global] Instance Step_eq_dec : EqDecision Step.
Proof. solve_decision. Defined.

(** [timestamp] holds the instant, in milliseconds, whose [toISOString()]
    the field stores; [new Date(timestamp).getTime()] reads it back. *)
Record ConversationMessage := {
  role : Role;
  content : string;
  timestamp : Z;
  messageId : string
}.

(** The requirement objects the route builds have the keys ["platforms"]
    and ["features"], each bound to an array of strings; object spread
    [{...a, ...b}] is the union that prefers [b]. *)
Abbreviation RequirementsObject := (gmap string (list string)).

Record Context := {
  userPreferences : gmap string string;
  technicalConstraints : gmap string string;
  previousApps : list string
}.

(** [extractedRequirements] is [null] until a reply carries requirements. *)
Record ConversationState := {
  conversationId : string;
  messages : list ConversationMessage;
  currentStep : Step;
  extractedRequirements : option RequirementsObject;
  context : Context
}.

(** The clock and the random source, indexed by the number of reads made
    so far: [clock] is what [Date.now()] and [new Date()] see, [random]
    is [Math.random().toString(36).substr(2, 9)]. *)
Record Env := {
  clock : nat → Z;
  random : nat → string
}.

(** The module-level [conversations] map and the number of reads of the
    environment. *)
Record World := {
  conversations : gmap string ConversationState;
  reads : nat
}.

(** Handlers are state transformers on the world. *)
Definition M (A : Type) : Type := World → A * World.

Definition ret {A} (a : A) : M A := λ w, (a, w).

Definition bind {A B} (m : M A) (k : A → M B) : M B :=
  λ w, let '(a, w') := m w in k a w'.

Notation "'let!' x ':=' m 'in' k" := (bind m (λ x, k))
  (at level 10, x name, m at level 100, k at level 200).

Definition get_conversation (id : string) : M (option ConversationState) :=
  λ w, (conversations w !! id, w).

Definition set_conversation (id : string) (c : ConversationState) : M unit :=
  λ w, (tt, {| conversations := <[id := c]> (conversations w); reads := reads w |}).

(** What the handlers answer with: the JSON body of each 200 response, or
    an error body with its status. *)
Inductive Response :=
| StartOk (conversationId : string) (message : ConversationMessage)
          (currentState : ConversationState)
| SendOk (userMessage assistantMessage : ConversationMessage)
         (currentState : ConversationState) (requiresAction : option bool)
| GetOk (conversation : ConversationState)
| EndOk (message : ConversationMessage) (finalRequirements : option RequirementsObject)
        (conversationSummary : string)
| Error (error : string) (status : nat).

(** The value of [generateAIResponse]; an absent key is [None]. *)
Record AIResponse := {
  ai_content : string;
  nextStep : Step;
  ai_extractedRequirements : option RequirementsObject;
  requiresAction : option bool
}.

Record MessageAnalysis := {
  initialRequirements : RequirementsObject;
  platformRequirements : RequirementsObject;
  featureRequirements : RequirementsObject
}.

Definition push_if (c : bool) (x : string) (arr : list string) : list string :=
  if c then arr ++ [x] else arr.

(** [analyzeUserMessage(message, context)] *)
Definition analyzeUserMessage (message : string) (context : Context) : MessageAnalysis :=
  let lowerMessage := JS.toLowerCase message in
  let inc := JS.includes lowerMessage in
  let platforms := [] in
  let platforms := push_if (inc "web") "web" platforms in
  let platforms := push_if (inc "android" || inc "mobile") "android" platforms in
  let platforms := push_if (inc "ios" || inc "iphone") "ios" platforms in
  let features := [] in
  let features := push_if (inc "login" || inc "user") "authentication" features in
  let features := push_if (inc "data" || inc "storage") "database" features in
  let features := push_if (inc "notification") "push notifications" features in
  let features := push_if (inc "social") "social features" features in
  {| initialRequirements := <["platforms" := platforms]> {["features" := features]};
     platformRequirements := {["platforms" := platforms]};
     featureRequirements := {["features" := features]} |}.

Definition containsAppIdea (message : string) : bool :=
  let appKeywords := ["app"; "application"; "build"; "create"; "develop"; "make"] in
  JS.some (λ keyword, JS.includes message keyword) appKeywords.

Definition containsPlatformInfo (message : string) : bool :=
  let platformKeywords := ["web"; "mobile"; "android"; "ios"; "iphone"; "website"] in
  JS.some (λ keyword, JS.includes message keyword) platformKeywords.

Definition containsFeatureInfo (message : string) : bool :=
  let featureKeywords := ["feature"; "function"; "do"; "should"; "need"; "want"] in
  JS.some (λ keyword, JS.includes message keyword) featureKeywords.

Definition containsConfirmation (message : string) : bool :=
  let confirmKeywords := ["yes"; "correct"; "right"; "exactly"; "perfect"; "good"] in
  JS.some (λ keyword, JS.includes message keyword) confirmKeywords.

(** [{...a, ...b}] where [a] may be [null]. *)
Definition spread (a : option RequirementsObject) (b : RequirementsObject) : RequirementsObject :=
  b ∪ default ∅ a.

(** [generateAIResponse(conversation, userMessage)] *)
Definition generateAIResponse
    (conversation : ConversationState) (userMessage : string) : AIResponse :=
  let lowerMessage := JS.toLowerCase userMessage in
  let analysis := analyzeUserMessage userMessage (context conversation) in
  match currentStep conversation with
  | greeting =>
      if containsAppIdea lowerMessage then
        {| ai_content := "That sounds like a great app idea! I can help you build that. Let me ask a few questions to make sure I understand exactly what you need. Which platforms would you like this app to work on - web, mobile, or both?";
           nextStep := requirement_gathering;
           ai_extractedRequirements := Some (initialRequirements analysis);
           requiresAction := None |}
      else
        {| ai_content := "I'd love to help you create an app! Could you tell me what kind of app you have in mind? For example, is it a todo app, a fitness tracker, a recipe manager, or something else entirely?";
           nextStep := greeting;
           ai_extractedRequirements := None;
           requiresAction := None |}
  | requirement_gathering =>
      if containsPlatformInfo lowerMessage then
        {| ai_content := "Perfect! Now, what specific features are most important to you? For example, do you need user accounts, data storage, notifications, or integration with other services?";
           nextStep := requirement_gathering;
           ai_extractedRequirements :=
             Some (spread (extractedRequirements conversation)
                          (platformRequirements analysis));
           requiresAction := None |}
      else if containsFeatureInfo lowerMessage then
        {| ai_content := "Excellent! I'm getting a clear picture of what you want. Just to make sure I understand correctly, you want an app with [summarize features]. Is that right?";
           nextStep := clarification;
           ai_extractedRequirements :=
             Some (spread (extractedRequirements conversation)
                          (featureRequirements analysis));
           requiresAction := None |}
      else
        {| ai_content := "I'm listening! Tell me more about what you'd like your app to do. What are the main features or functionality you need?";
           nextStep := requirement_gathering;
           ai_extractedRequirements := None;
           requiresAction := None |}
  | clarification =>
      if containsConfirmation lowerMessage then
        {| ai_content := "Wonderful! I have all the information I need to create your app. You can now generate the app, or if you'd like to make any changes, just let me know!";
           nextStep := completion;
           ai_extractedRequirements := None;
           requiresAction := Some true |}
      else
        {| ai_content := "I want to make sure I get this exactly right. Could you clarify what you meant by [clarification point]?";
           nextStep := clarification;
           ai_extractedRequirements := None;
           requiresAction := None |}
  | _ =>
      {| ai_content := "I'm here to help you create your app! What would you like to discuss?";
         nextStep := greeting;
         ai_extractedRequirements := None;
         requiresAction := None |}
  end.

Section Handlers.

Variable env : Env.

(** [Date.now()] and [new Date()]: one read of the clock. *)
Definition now : M Z :=
  λ w, (clock env (reads w),
        {| conversations := conversations w; reads := S (reads w) |}).

(** [Math.random().toString(36).substr(2, 9)] *)
Definition random36 : M string :=
  λ w, (random env (reads w),
        {| conversations := conversations w; reads := S (reads w) |}).

Definition generateConversationId : M string :=
  let! t := now in
  let! r := random36 in
  ret ("conv_" +:+ pretty t +:+ "_" +:+ r).

Definition generateMessageId : M string :=
  let! t := now in
  let! r := random36 in
  ret ("msg_" +:+ pretty t +:+ "_" +:+ r).

(** The object literal [{ role, content, timestamp: new
    Date().toISOString(), messageId: generateMessageId() }]. *)
Definition newMessage (r : Role) (c : string) : M ConversationMessage :=
  let! t := now in
  let! id := generateMessageId in
  ret {| role := r; content := c; timestamp := t; messageId := id |}.

Definition greetingText : string :=
  "Hello! I'm your AI app development assistant. I'd love to help you create your perfect app. To get started, could you tell me what kind of app you'd like to build?".

Definition closingText : string :=
  "Thank you for sharing your app idea! I have a good understanding of what you want to create. You can now proceed to generate your app, or feel free to ask me any other questions.".

Definition notFound : Response := Error "Conversation not found" 404.

(** [handleStartConversation(userId)] *)
Definition handleStartConversation (userId : string) : M Response :=
  let! conversationId := generateConversationId in
  let initialState :=
    {| conversationId := conversationId;
       messages := [];
       currentStep := greeting;
       extractedRequirements := None;
       context := {| userPreferences := ∅;
                     technicalConstraints := ∅;
                     previousApps := [] |} |} in
  let! greetingMessage := newMessage assistant greetingText in
  let initialState :=
    {| conversationId := conversationId;
       messages := messages initialState ++ [greetingMessage];
       currentStep := currentStep initialState;
       extractedRequirements := extractedRequirements initialState;
       context := context initialState |} in
  let! _ := set_conversation conversationId initialState in
  ret (StartOk conversationId greetingMessage initialState).

(** [conversation.messages.push(m)] *)
Definition push_message (c : ConversationState) (m : ConversationMessage)
    : ConversationState :=
  {| conversationId := conversationId c;
     messages := messages c ++ [m];
     currentStep := currentStep c;
     extractedRequirements := extractedRequirements c;
     context := context c |}.

(** [conversation.currentStep = s] *)
Definition set_currentStep (c : ConversationState) (s : Step) : ConversationState :=
  {| conversationId := conversationId c;
     messages := messages c;
     currentStep := s;
     extractedRequirements := extractedRequirements c;
     context := context c |}.

(** [conversation.extractedRequirements = r] *)
Definition set_extractedRequirements
    (c : ConversationState) (r : RequirementsObject) : ConversationState :=
  {| conversationId := conversationId c;
     messages := messages c;
     currentStep := currentStep c;
     extractedRequirements := Some r;
     context := context c |}.

(** [handleSendMessage(conversationId, message)].  The stored object is
    mutated in place; the model writes it back on every path that
    reaches the final [conversations.set]. *)
Definition handleSendMessage (conversationId message : string) : M Response :=
  let! found := get_conversation conversationId in
  match found with
  | None => ret notFound
  | Some conversation =>
      let! userMessage := newMessage user message in
      let conversation := push_message conversation userMessage in
      let aiResponse := generateAIResponse conversation message in
      let! assistantMessage := newMessage assistant (ai_content aiResponse) in
      let conversation := push_message conversation assistantMessage in
      let conversation := set_currentStep conversation (nextStep aiResponse) in
      let conversation :=
        match ai_extractedRequirements aiResponse with
        | Some r => set_extractedRequirements conversation r
        | None => conversation
        end in
      let! _ := set_conversation conversationId conversation in
      ret (SendOk userMessage assistantMessage conversation
                  (requiresAction aiResponse))
  end.

(** [handleGetConversation(conversationId)] *)
Definition handleGetConversation (conversationId : string) : M Response :=
  let! found := get_conversation conversationId in
  match found with
  | None => ret notFound
  | Some conversation => ret (GetOk conversation)
  end.

Definition is_user (m : ConversationMessage) : bool :=
  bool_decide (role m = user).

(** [Math.round(d / 1000)] for an integer [d]: the nearest integer, a
    half rounding up. *)
Definition round_seconds (d : Z) : Z := ((d + 500) `div` 1000)%Z.

(** [generateConversationSummary(conversation)] *)
Definition generateConversationSummary (conversation : ConversationState) : string :=
  let messageCount := List.length (messages conversation) in
  let userMessages := List.length (List.filter is_user (messages conversation)) in
  let duration :=
    match messages conversation, last (messages conversation) with
    | first :: _, Some final => (timestamp final - timestamp first)%Z
    | _, _ => 0%Z
    end in
  "Conversation with " +:+ pretty userMessages +:+ " user messages and "
  +:+ pretty (messageCount - userMessages) +:+ " AI responses, lasting "
  +:+ pretty (round_seconds duration) +:+ " seconds.".

(** [handleEndConversation(conversationId)] *)
Definition handleEndConversation (conversationId : string) : M Response :=
  let! found := get_conversation conversationId in
  match found with
  | None => ret notFound
  | Some conversation =>
      let! closingMessage := newMessage assistant closingText in
      let conversation := push_message conversation closingMessage in
      let conversation := set_currentStep conversation completion in
      let! _ := set_conversation conversationId conversation in
      ret (EndOk closingMessage (extractedRequirements conversation)
                 (generateConversationSummary conversation))
  end.

(** The request body, with the fields at the types the handlers declare. *)
Record Body := {
  action : string;
  body_conversationId : string;
  body_message : string;
  userId : string
}.

(** [POST(request)]: the dispatch on [action]. *)
Definition POST (body : Body) : M Response :=
  if bool_decide (action body = "start") then
    handleStartConversation (userId body)
  else if bool_decide (action body = "send_message") then
    handleSendMessage (body_conversationId body) (body_message body)
  else if bool_decide (action body = "get_conversation") then
    handleGetConversation (body_conversationId body)
  else if bool_decide (action body = "end_conversation") then
    handleEndConversation (body_conversationId body)
  else ret (Error "Invalid action" 400).

(** A run of [send_message] calls on one conversation, in order. *)
Fixpoint send_all (conversationId : string) (msgs : list string)
    : M (list Response) :=
  match msgs with
  | [] => ret []
  | m :: rest =>
      let! r := handleSendMessage conversationId m in
      let! rs := send_all conversationId rest in
      ret (r :: rs)
  end.

End Handlers.

(** What [extractedRequirements] holds after a reply has been merged. *)
Definition merged (old new : option RequirementsObject) : option RequirementsObject :=
  match new with
  | Some r => Some r
  | None => old
  end.

Definition is_SendOk (r : Response) : bool :=
  match r with SendOk _ _ _ _ => true | _ => false end.

(** The substrings [analyzeUserMessage] looks for when it collects
    platforms. *)
Definition analysedPlatformKeywords : list string :=
  ["web"; "android"; "mobile"; "ios"; "iphone"].

(** The conversation stored under [id], after a handler has run. *)
Definition stored {A} (id : string) (r : A * World) : option ConversationState :=
  conversations r.2 !! id.

(** A concrete environment and a concrete run, for the examples: a clock
    that advances by one millisecond per read and a constant random
    suffix. *)
Definition sample_env : Env :=
  {| clock := λ n, (1700000000000 + Z.of_nat n)%Z;
     random := λ _, "k3jx9q2ab" |}.

Definition empty_world : World := {| conversations := ∅; reads := 0 |}.

Definition sample_id : string := "conv_1700000000000_k3jx9q2ab".

Definition started_world : World :=
  (handleStartConversation sample_env "user-1" empty_world).2.

Definition completed_world : World :=
  (send_all sample_env sample_id
     ["I want to build a todo app"; "It should have reminders"; "Yes, exactly"]
     started_world).2.

End Conversation.

(** ** Runs of requests against the conversation route *)
Module ConversationRuns.

Import Conversation.

(** The requests of [bodies], handled by [POST] one after the other. *)
Fixpoint run (env : Env) (bodies : list Body) : M (list Response) :=
  match bodies with
  | [] => ret []
  | b :: rest =>
      bind (POST env b) (λ r, bind (run env rest) (λ rs, ret (r :: rs)))
  end.

(** How far a step is along [greeting], [requirement_gathering],
    [clarification], [completion]. *)
Definition rank (s : Step) : nat :=
  match s with
  | greeting => 0
  | requirement_gathering => 1
  | clarification => 2
  | confirmation => 3
  | completion => 3
  end.

(** What every stored conversation satisfies: it sits under its own
    identifier, its history opens with the assistant's greeting, and it is
    not in the step [confirmation]. *)
Definition well_formed (id : string) (c : ConversationState) : Prop :=
  conversationId c = id
  ∧ (∃ g rest, messages c = g :: rest
               ∧ role g = assistant ∧ content g = greetingText)
  ∧ currentStep c ≠ confirmation.

(** The keys of a requirements object, [null] having none. *)
Definition keys (r : option RequirementsObject) : gset string :=
  match r with
  | Some m => dom m
  | None => ∅
  end.

(** The sample conversation after its first answer, for the examples. *)
Definition gathering_world : World :=
  (send_all sample_env sample_id ["I want to build a todo app"] started_world).2.

End ConversationRuns.

(** ** More of the JavaScript string functions *)
Module JSText.

(** The ASCII white space [trim] removes: tab, line feed, vertical tab,
    form feed, carriage return and space. *)
Definition is_space (c : ascii) : bool :=
  let n := Ascii.nat_of_ascii c in
  (n =? 32)%nat || ((9 <=? n)%nat && (n <=? 13)%nat).

(** [s.trimStart()] *)
Fixpoint trimStart (s : string) : string :=
  match s with
  | EmptyString => EmptyString
  | String c r => if is_space c then trimStart r else s
  end.

(** [s.trimEnd()] *)
Definition trimEnd (s : string) : string :=
  String.rev (trimStart (String.rev s)).

(** [s.trim()] *)
Definition trim (s : string) : string := trimEnd (trimStart s).

(** A string is truthy when it is not empty. *)
Definition truthy (s : string) : bool :=
  match s with
  | EmptyString => false
  | String _ _ => true
  end.


End JSText.

(** ** The generator of the front page, all platforms *)
Module AppGenerator.

Inductive BuildSystem := eas | capacitor.

#[global] Instance BuildSystem_eq_dec : EqDecision BuildSystem.
Proof. solve_decision. Defined.

(** The [platform] object; its keys are created in the order [web],
    [android], [ios] and every update keeps that order. *)
Record PlatformSelection := {
  web : bool;
  android : bool;
  ios : bool
}.

(** The mobile templates, recorded like the web ones: the template and the
    name spliced into it. *)
Inductive MobileContent :=
| MobileTodoApp (appName : string)      (* the [if (isTodoApp)] screen *)
| MobileListApp (appName : string)      (* the [else] screen *)
| MobilePackageJson (appName : string)
| AppJson (appName : string)
| EasJson
| CapacitorConfigJson (appName : string).

Inductive FileContent :=
| WebFile (c : Generator.Content)
| MobileFile (c : MobileContent).

(** An element of [generatedFiles]. *)
Record ProjectFile := {
  filename : string;
  content : FileContent;
  path : string
}.

Record GeneratedApp := {
  name : string;
  platforms : list string;
  buildCommand : string;
  generatedFiles : list ProjectFile;
  instructions : string;
  assumptions : list string
}.

(** A web file as an element of [generatedFiles]. *)
Definition of_web (f : Generator.GeneratedFile) : ProjectFile :=
  {| filename := Generator.filename f;
     content := WebFile (Generator.content f);
     path := Generator.path f |}.

(** [generateMobileFiles(idea, appName, buildSystem)] *)
Definition generateMobileFiles
    (idea appName : string) (buildSystem : BuildSystem) : list ProjectFile :=
  let isTodoApp := JS.includes (JS.toLowerCase idea) "todo" in
  let appCode := if isTodoApp then MobileTodoApp appName else MobileListApp appName in
  let files :=
    [ {| filename := "App.js"; content := MobileFile appCode; path := "/" |};
      {| filename := "package.json";
         content := MobileFile (MobilePackageJson appName); path := "/" |} ] in
  if bool_decide (buildSystem = eas) then
    files ++
    [ {| filename := "app.json"; content := MobileFile (AppJson appName); path := "/" |};
      {| filename := "eas.json"; content := MobileFile EasJson; path := "/" |} ]
  else
    files ++
    [ {| filename := "capacitor.config.json";
         content := MobileFile (CapacitorConfigJson appName); path := "/" |} ].

(** [Object.entries(platforms)] *)
Definition entries (platforms : PlatformSelection) : list (string * bool) :=
  [ ("web", web platforms); ("android", android platforms); ("ios", ios platforms) ].

(** [generateAppFromIdea(idea, platforms, buildSystem)] *)
Definition generateAppFromIdea
    (idea : string) (platforms : PlatformSelection) (buildSystem : BuildSystem)
    : GeneratedApp :=
  let appName := Generator.generateAppName idea in
  let selectedPlatforms :=
    List.map fst (List.filter (λ '(_, selected), selected) (entries platforms)) in
  let generatedFiles := [] in
  let generatedFiles :=
    if web platforms
    then generatedFiles ++ List.map of_web (Generator.generateWebFiles idea appName)
    else generatedFiles in
  let generatedFiles :=
    if android platforms || ios platforms
    then generatedFiles ++ generateMobileFiles idea appName buildSystem
    else generatedFiles in
  let buildCommand :=
    if web platforms then "vercel --prod"
    else "eas build --platform "
         +:+ (if android platforms && ios platforms then "all"
              else if android platforms then "android" else "ios")
         +:+ " --non-interactive" in
  let instructions :=
    if web platforms
    then "Deploy to Vercel: Connect your repository and deploy automatically."
    else "Build with EAS: Run the build command and deploy to app stores." in
  let assumptions :=
    [ "Cloud-ready project structure";
      "Automated build configuration";
      "Cross-platform compatibility";
      "Production-ready code" ] in
  {| name := appName;
     platforms := selectedPlatforms;
     buildCommand := buildCommand;
     generatedFiles := generatedFiles;
     instructions := instructions;
     assumptions := assumptions |}.

End AppGenerator.

(** ** The front page: the voice requirements and the task preview

    A handler of the component is a function of the state it is called in.
    The calls of [toast] are kept in order.  The handlers that generate and
    build are in [Module Page]. *)
Module Home.

Import AppGenerator.

Inductive Status := pending | building | completed | failed.

(** The object the data URL of a finished build encodes; its other fields
    are fixed texts or follow from [targetPlatform]. *)
Record BuildInfo := {
  appName : string;
  targetPlatform : string;
  buildDate : Z
}.

(** [BuildStatus]; [build_platform] is its [platform] field. *)
Record BuildStatus := {
  build_platform : string;
  status : Status;
  downloadUrl : option BuildInfo;
  progress : nat
}.

(** A call of [toast]. *)
Record Toast := {
  title : string;
  description : string;
  variant : option string
}.

(** An element of [tasks]; [task_title] and [task_completed] are its
    [title] and [completed] fields. *)
Record Task := {
  id : nat;
  task_title : string;
  due : string;
  task_completed : bool;
  priority : string
}.

(** The requirements object the voice input hands over; only its
    [platforms] are read, and they may be absent. *)
Record VoiceRequirements := {
  voice_platforms : option (list string)
}.

(** The state of the component the handlers below read and write, and the
    toasts shown so far. *)
Record State := {
  idea : string;
  platform : PlatformSelection;
  buildSystem : BuildSystem;
  isGenerating : bool;
  generatedApp : option GeneratedApp;
  previewMode : bool;
  buildStatuses : list BuildStatus;
  tasks : list Task;
  newTask : string;
  voiceRequirements : option VoiceRequirements;
  toasts : list Toast
}.

(** The state of the first render. *)
Definition initialState : State :=
  {| idea := "";
     platform := {| web := false; android := false; ios := false |};
     buildSystem := eas;
     isGenerating := false;
     generatedApp := None;
     previewMode := false;
     buildStatuses := [];
     tasks :=
       [ {| id := 1; task_title := "Complete project proposal"; due := "Due today";
            task_completed := false; priority := "blue" |};
         {| id := 2; task_title := "Review code changes"; due := "Completed";
            task_completed := true; priority := "green" |};
         {| id := 3; task_title := "Team meeting at 2 PM"; due := "High priority";
            task_completed := false; priority := "yellow" |} ];
     newTask := "";
     voiceRequirements := None;
     toasts := [] |}.

Definition setPlatform (p : PlatformSelection) (st : State) : State :=
  {| idea := idea st; platform := p; buildSystem := buildSystem st;
     isGenerating := isGenerating st; generatedApp := generatedApp st;
     previewMode := previewMode st; buildStatuses := buildStatuses st;
     tasks := tasks st; newTask := newTask st;
     voiceRequirements := voiceRequirements st; toasts := toasts st |}.

Definition setTasks (l : list Task) (st : State) : State :=
  {| idea := idea st; platform := platform st; buildSystem := buildSystem st;
     isGenerating := isGenerating st; generatedApp := generatedApp st;
     previewMode := previewMode st; buildStatuses := buildStatuses st;
     tasks := l; newTask := newTask st;
     voiceRequirements := voiceRequirements st; toasts := toasts st |}.

Definition setNewTask (s : string) (st : State) : State :=
  {| idea := idea st; platform := platform st; buildSystem := buildSystem st;
     isGenerating := isGenerating st; generatedApp := generatedApp st;
     previewMode := previewMode st; buildStatuses := buildStatuses st;
     tasks := tasks st; newTask := s;
     voiceRequirements := voiceRequirements st; toasts := toasts st |}.

Definition setVoiceRequirements (r : VoiceRequirements) (st : State) : State :=
  {| idea := idea st; platform := platform st; buildSystem := buildSystem st;
     isGenerating := isGenerating st; generatedApp := generatedApp st;
     previewMode := previewMode st; buildStatuses := buildStatuses st;
     tasks := tasks st; newTask := newTask st;
     voiceRequirements := Some r; toasts := toasts st |}.

Definition toast (t : Toast) (st : State) : State :=
  {| idea := idea st; platform := platform st; buildSystem := buildSystem st;
     isGenerating := isGenerating st; generatedApp := generatedApp st;
     previewMode := previewMode st; buildStatuses := buildStatuses st;
     tasks := tasks st; newTask := newTask st;
     voiceRequirements := voiceRequirements st; toasts := toasts st ++ [t] |}.

(** The body of the [forEach] in [handleVoiceRequirementsExtracted]. *)
Definition markPlatform (newPlatform : PlatformSelection) (p : string)
    : PlatformSelection :=
  let newPlatform :=
    if bool_decide (p = "web")
    then {| web := true; android := android newPlatform; ios := ios newPlatform |}
    else newPlatform in
  let newPlatform :=
    if bool_decide (p = "android")
    then {| web := web newPlatform; android := true; ios := ios newPlatform |}
    else newPlatform in
  if bool_decide (p = "ios")
  then {| web := web newPlatform; android := android newPlatform; ios := true |}
  else newPlatform.

(** [handleVoiceRequirementsExtracted(requirements)] *)
Definition handleVoiceRequirementsExtracted
    (requirements : VoiceRequirements) (st : State) : State :=
  let st' := setVoiceRequirements requirements st in
  match voice_platforms requirements with
  | Some ps => setPlatform (foldl markPlatform (platform st) ps) st'
  | None => st'
  end.

(** [Object.values(platform)] *)
Definition values (p : PlatformSelection) : list bool := [web p; android p; ios p].

(** [toggleTask(taskId)] *)
Definition toggleTask (taskId : nat) (st : State) : State :=
  setTasks
    (List.map
       (λ task,
          if bool_decide (id task = taskId)
          then {| id := id task; task_title := task_title task; due := due task;
                  task_completed := negb (task_completed task);
                  priority := priority task |}
          else task)
       (tasks st))
    st.

(** [addTask()] *)
Definition addTask (st : State) : State :=
  if JSText.truthy (JSText.trim (newTask st)) then
    let newTaskObj :=
      {| id := List.length (tasks st) + 1;
         task_title := JSText.trim (newTask st);
         due := "New task";
         task_completed := false;
         priority := "blue" |} in
    let st1 := setTasks (tasks st ++ [newTaskObj]) st in
    let st2 := setNewTask "" st1 in
    toast {| title := "Task Added!";
             description := "New task has been added to your list.";
             variant := None |} st2
  else st.

(** The events of the task preview: typing into the input, adding,
    toggling. *)
Inductive TaskEvent :=
| Type_ (text : string)
| Add
| Toggle (taskId : nat).

Definition taskStep (st : State) (e : TaskEvent) : State :=
  match e with
  | Type_ text => setNewTask text st
  | Add => addTask st
  | Toggle taskId => toggleTask taskId st
  end.

(** The requirements of the endpoint as the voice input hands them over. *)
Definition of_analysis (r : Requirements.RequirementsAnalysis) : VoiceRequirements :=
  {| voice_platforms := Some (Requirements.platforms r) |}.

End Home.

(** ** JavaScript strings as sequences of UTF-16 code units

    The parts of the front page whose behaviour depends on which characters
    the idea holds are embedded over code units.  The built-in functions
    whose result depends on the Unicode tables are taken as they are given:
    [Builtins] names them and states what the program needs of them on
    ASCII text. *)
Module Text.

Abbreviation jsstring := (list N).

(** A literal of the program.  The literals are ASCII: one code unit per
    character. *)
Definition lit (s : string) : jsstring :=
  List.map N_of_ascii (list_ascii_of_string s).

Definition is_ascii (s : jsstring) : Prop := Forall (λ c, (c < 128)%N) s.

#[global] Instance is_ascii_dec s : Decision (is_ascii s).
Proof. unfold is_ascii. apply _. Defined.

(** The case mapping of the letters [A]-[Z] and [a]-[z]. *)
Definition lower_unit (c : N) : N :=
  if (65 <=? c)%N && (c <=? 90)%N then (c + 32)%N else c.

Definition upper_unit (c : N) : N :=
  if (97 <=? c)%N && (c <=? 122)%N then (c - 32)%N else c.

(** [String.prototype.toLowerCase], [toUpperCase] and [trim].  On ASCII
    text the case mappings are those of the ASCII letters; nothing is
    assumed of them elsewhere, and nothing of [trim]. *)
Class Builtins := {
  toLowerCase : jsstring → jsstring;
  toUpperCase : jsstring → jsstring;
  trim : jsstring → jsstring;
  toLowerCase_ascii : ∀ s, is_ascii s → toLowerCase s = lower_unit <$> s;
  toUpperCase_ascii : ∀ s, is_ascii s → toUpperCase s = upper_unit <$> s
}.

(** [s.startsWith(p)] *)
Fixpoint startsWith (s p : jsstring) : bool :=
  match p, s with
  | [], _ => true
  | _ :: _, [] => false
  | a :: p', b :: s' => (a =? b)%N && startsWith s' p'
  end.

(** [s.includes(k)] *)
Fixpoint includes (s k : jsstring) : bool :=
  startsWith s k ||
  match s with
  | [] => false
  | _ :: r => includes r k
  end.

(** [s.split(' ')] *)
Fixpoint split_go (cur : jsstring) (s : jsstring) : list jsstring :=
  match s with
  | [] => [reverse cur]
  | c :: r =>
      if (c =? 32)%N
      then reverse cur :: split_go [] r
      else split_go (c :: cur) r
  end.

Definition split_space (s : jsstring) : list jsstring := split_go [] s.

(** [s.charAt(i)]: the code unit at [i] as a string, empty out of range. *)
Definition charAt (s : jsstring) (i : nat) : jsstring := take 1 (drop i s).

(** [s.slice(i)] for a non-negative [i]. *)
Definition slice_from (s : jsstring) (i : nat) : jsstring := drop i s.

(** [a.join(sep)] *)
Fixpoint join (sep : jsstring) (a : list jsstring) : jsstring :=
  match a with
  | [] => []
  | [x] => x
  | x :: rest => x ++ sep ++ join sep rest
  end.

(** A string is truthy when it is not empty. *)
Definition truthy (s : jsstring) : bool :=
  match s with
  | [] => false
  | _ :: _ => true
  end.

Definition is_high_surrogate (c : N) : bool := (55296 <=? c)%N && (c <=? 56319)%N.
Definition is_low_surrogate (c : N) : bool := (56320 <=? c)%N && (c <=? 57343)%N.

(** [JSON.stringify] writes the code units of a string as they are, except
    for the quote, the backslash, the control characters and the lone
    surrogates, which it escapes in ASCII.  [outside_latin1 s] tells whether
    what it writes for [s] holds a code unit above 0xFF: a surrogate pair,
    or a code unit above 0xFF that is no surrogate. *)
Fixpoint outside_latin1 (s : jsstring) : bool :=
  match s with
  | [] => false
  | c :: r =>
      if is_high_surrogate c then
        match r with
        | d :: _ => is_low_surrogate d
        | [] => false
        end || outside_latin1 r
      else if is_low_surrogate c then outside_latin1 r
      else (255 <? c)%N || outside_latin1 r
  end.

(** The ASCII white space, for the instance below. *)
Definition is_space (c : N) : bool :=
  (c =? 32)%N || ((9 <=? c)%N && (c <=? 13)%N).

Fixpoint trimStart (s : jsstring) : jsstring :=
  match s with
  | [] => []
  | c :: r => if is_space c then trimStart r else s
  end.

(** Built-ins that know the ASCII letters and the ASCII white space only:
    the requirements of [Builtins] can be met, and the examples run. *)
Definition ascii_builtins : Builtins := {|
  toLowerCase := fmap lower_unit;
  toUpperCase := fmap upper_unit;
  trim := λ s, reverse (trimStart (reverse (trimStart s)));
  toLowerCase_ascii := λ s _, eq_refl;
  toUpperCase_ascii := λ s _, eq_refl
|}.

End Text.

(** ** The front page on the text of the idea

    [generateAppName], [generateWebFiles], [generateMobileFiles],
    [generateAppFromIdea], [handleGenerate], [startBuild] and
    [startAllBuilds] over code-unit strings.  A handler is a function of
    the state it is called in and runs to its end with no other update in
    between; the calls of [toast] are kept in order, speech output is left
    out.  [startBuild] and [startAllBuilds] are asynchronous functions: an
    exception thrown inside them rejects their promise and leaves the
    updates made so far in place. *)
Module Page.

Import Text.
Import AppGenerator (BuildSystem, eas, capacitor, PlatformSelection, web, android, ios).

(** A generated content: the template and the name spliced into it. *)
Inductive Content :=
| WebTodoPage (appName : jsstring)      (* web, [if (isTodoApp)] *)
| WebListPage (appName : jsstring)      (* web, [else] *)
| WebPackageJson (appName : jsstring)
| NextConfigJs
| VercelJson
| MobileTodoApp (appName : jsstring)    (* mobile, [if (isTodoApp)] *)
| MobileListApp (appName : jsstring)    (* mobile, [else] *)
| MobilePackageJson (appName : jsstring)
| AppJson (appName : jsstring)
| EasJson
| CapacitorConfigJson (appName : jsstring).

Record GeneratedFile := {
  filename : jsstring;
  content : Content;
  path : jsstring
}.

Record GeneratedApp := {
  name : jsstring;
  platforms : list jsstring;
  buildCommand : jsstring;
  generatedFiles : list GeneratedFile;
  instructions : jsstring;
  assumptions : list jsstring
}.

Inductive Status := pending | building | completed | failed.

(** The object [buildInfo] the data URL of a finished build encodes; its
    other fields are fixed ASCII texts or follow from [targetPlatform]. *)
Record BuildInfo := {
  appName : jsstring;
  targetPlatform : jsstring;
  buildDate : Z
}.

(** [BuildStatus]; [build_platform] is its [platform] field. *)
Record BuildStatus := {
  build_platform : jsstring;
  status : Status;
  downloadUrl : option BuildInfo;
  progress : nat
}.

(** A call of [toast]. *)
Record Toast := {
  title : jsstring;
  description : jsstring;
  variant : option jsstring
}.

(** The state these handlers read and write, and the toasts shown so far. *)
Record State := {
  idea : jsstring;
  platform : PlatformSelection;
  buildSystem : BuildSystem;
  isGenerating : bool;
  generatedApp : option GeneratedApp;
  previewMode : bool;
  buildStatuses : list BuildStatus;
  toasts : list Toast
}.

Definition setIsGenerating (b : bool) (st : State) : State :=
  {| idea := idea st; platform := platform st; buildSystem := buildSystem st;
     isGenerating := b; generatedApp := generatedApp st;
     previewMode := previewMode st; buildStatuses := buildStatuses st;
     toasts := toasts st |}.

Definition setGeneratedApp (a : GeneratedApp) (st : State) : State :=
  {| idea := idea st; platform := platform st; buildSystem := buildSystem st;
     isGenerating := isGenerating st; generatedApp := Some a;
     previewMode := previewMode st; buildStatuses := buildStatuses st;
     toasts := toasts st |}.

Definition setPreviewMode (b : bool) (st : State) : State :=
  {| idea := idea st; platform := platform st; buildSystem := buildSystem st;
     isGenerating := isGenerating st; generatedApp := generatedApp st;
     previewMode := b; buildStatuses := buildStatuses st;
     toasts := toasts st |}.

(** [setBuildStatuses(prev => f(prev))] *)
Definition setBuildStatuses
    (f : list BuildStatus → list BuildStatus) (st : State) : State :=
  {| idea := idea st; platform := platform st; buildSystem := buildSystem st;
     isGenerating := isGenerating st; generatedApp := generatedApp st;
     previewMode := previewMode st; buildStatuses := f (buildStatuses st);
     toasts := toasts st |}.

Definition toast (t : Toast) (st : State) : State :=
  {| idea := idea st; platform := platform st; buildSystem := buildSystem st;
     isGenerating := isGenerating st; generatedApp := generatedApp st;
     previewMode := previewMode st; buildStatuses := buildStatuses st;
     toasts := toasts st ++ [t] |}.

Definition stopWords : list jsstring :=
  [ lit "with"; lit "that"; lit "for"; lit "and"; lit "the"; lit "app";
    lit "application" ].

Section WithBuiltins.

Context `{Builtins}.

(** [generateAppName(idea)] *)
Definition generateAppName (idea : jsstring) : jsstring :=
  let keywords := split_space (toLowerCase idea) in
  let nameWords :=
    take 2
      (List.filter
         (λ word, (3 <? List.length word)%nat
                  && negb (bool_decide (word ∈ stopWords)))
         keywords) in
  if Nat.eqb (List.length nameWords) 0 then lit "MyApp"
  else
    join []
      (List.map (λ word, toUpperCase (charAt word 0) ++ slice_from word 1)
                nameWords).

(** [generateWebFiles(idea, appName)] *)
Definition generateWebFiles (idea appName : jsstring) : list GeneratedFile :=
  let isTodoApp := includes (toLowerCase idea) (lit "todo") in
  let appCode := if isTodoApp then WebTodoPage appName else WebListPage appName in
  [ {| filename := lit "pages/index.js"; content := appCode; path := lit "/" |};
    {| filename := lit "package.json"; content := WebPackageJson appName;
       path := lit "/" |};
    {| filename := lit "next.config.js"; content := NextConfigJs; path := lit "/" |};
    {| filename := lit "vercel.json"; content := VercelJson; path := lit "/" |} ].

(** [generateMobileFiles(idea, appName, buildSystem)] *)
Definition generateMobileFiles
    (idea appName : jsstring) (buildSystem : BuildSystem) : list GeneratedFile :=
  let isTodoApp := includes (toLowerCase idea) (lit "todo") in
  let appCode := if isTodoApp then MobileTodoApp appName else MobileListApp appName in
  let files :=
    [ {| filename := lit "App.js"; content := appCode; path := lit "/" |};
      {| filename := lit "package.json"; content := MobilePackageJson appName;
         path := lit "/" |} ] in
  if bool_decide (buildSystem = eas) then
    files ++
    [ {| filename := lit "app.json"; content := AppJson appName; path := lit "/" |};
      {| filename := lit "eas.json"; content := EasJson; path := lit "/" |} ]
  else
    files ++
    [ {| filename := lit "capacitor.config.json";
         content := CapacitorConfigJson appName; path := lit "/" |} ].

(** [Object.entries(platforms)]; the keys of the object were created in
    the order [web], [android], [ios]. *)
Definition entries (platforms : PlatformSelection) : list (jsstring * bool) :=
  [ (lit "web", web platforms); (lit "android", android platforms);
    (lit "ios", ios platforms) ].

(** [generateAppFromIdea(idea, platforms, buildSystem)] *)
Definition generateAppFromIdea
    (idea : jsstring) (platforms : PlatformSelection) (buildSystem : BuildSystem)
    : GeneratedApp :=
  let appName := generateAppName idea in
  let selectedPlatforms :=
    List.map fst (List.filter (λ '(_, selected), selected) (entries platforms)) in
  let generatedFiles := [] in
  let generatedFiles :=
    if web platforms
    then generatedFiles ++ generateWebFiles idea appName
    else generatedFiles in
  let generatedFiles :=
    if android platforms || ios platforms
    then generatedFiles ++ generateMobileFiles idea appName buildSystem
    else generatedFiles in
  let buildCommand :=
    if web platforms then lit "vercel --prod"
    else lit "eas build --platform "
         ++ (if android platforms && ios platforms then lit "all"
             else if android platforms then lit "android" else lit "ios")
         ++ lit " --non-interactive" in
  let instructions :=
    if web platforms
    then lit "Deploy to Vercel: Connect your repository and deploy automatically."
    else lit "Build with EAS: Run the build command and deploy to app stores." in
  let assumptions :=
    [ lit "Cloud-ready project structure";
      lit "Automated build configuration";
      lit "Cross-platform compatibility";
      lit "Production-ready code" ] in
  {| name := appName;
     platforms := selectedPlatforms;
     buildCommand := buildCommand;
     generatedFiles := generatedFiles;
     instructions := instructions;
     assumptions := assumptions |}.

(** [Object.values(platform)] *)
Definition values (p : PlatformSelection) : list bool := [web p; android p; ios p].

Definition missingInformation : Toast :=
  {| title := lit "Missing Information";
     description :=
       lit "Please provide your app idea and select at least one platform.";
     variant := Some (lit "destructive") |}.

Definition pendingBuild (p : jsstring) : BuildStatus :=
  {| build_platform := p; status := pending; downloadUrl := None; progress := 0 |}.

(** [handleGenerate()], from the call to the end of its [finally]. *)
Definition handleGenerate (st : State) : State :=
  if negb (truthy (trim (idea st)))
     || negb (existsb (λ v, v) (values (platform st)))
  then toast missingInformation st
  else
    let st1 := setIsGenerating true st in
    let app := generateAppFromIdea (idea st) (platform st) (buildSystem st) in
    let st2 := setGeneratedApp app st1 in
    let st3 := setPreviewMode true st2 in
    let initialStatuses := List.map pendingBuild (platforms app) in
    let st4 := setBuildStatuses (λ _, initialStatuses) st3 in
    let st5 :=
      toast {| title := lit "App Generated Successfully!";
               description :=
                 lit "Your " ++ name app ++ lit " is ready for preview and build.";
               variant := None |} st4 in
    setIsGenerating false st5.

End WithBuiltins.

(** [prev.map(status => status.platform === targetPlatform ? f(status) :
    status)] *)
Definition forTarget (target : jsstring) (f : BuildStatus → BuildStatus)
    (prev : list BuildStatus) : list BuildStatus :=
  List.map (λ s, if bool_decide (build_platform s = target) then f s else s) prev.

(** [{ ...status, status: 'building', progress: 0 }] *)
Definition beginBuild (s : BuildStatus) : BuildStatus :=
  {| build_platform := build_platform s; status := building;
     downloadUrl := downloadUrl s; progress := 0 |}.

(** [{ ...status, progress: p }] *)
Definition withProgress (p : nat) (s : BuildStatus) : BuildStatus :=
  {| build_platform := build_platform s; status := status s;
     downloadUrl := downloadUrl s; progress := p |}.

(** [{ ...status, status: 'completed', progress: 100, downloadUrl }] *)
Definition completeBuild (url : BuildInfo) (s : BuildStatus) : BuildStatus :=
  {| build_platform := build_platform s; status := completed;
     downloadUrl := Some url; progress := 100 |}.

Definition buildSteps : list (nat * jsstring) :=
  [ (20, lit "Installing dependencies...");
    (40, lit "Configuring build...");
    (60, lit "Compiling code...");
    (80, lit "Packaging application...");
    (100, lit "Build completed!") ].

(** [btoa(JSON.stringify(buildInfo, null, 2))] throws: [btoa] refuses every
    code unit above 0xFF, and of the strings of [buildInfo] only the name
    of the application and the platform are not fixed ASCII text. *)
Definition btoa_throws (info : BuildInfo) : bool :=
  outside_latin1 (appName info) || outside_latin1 (targetPlatform info).

(** How a call of an asynchronous handler ends, and the state it leaves. *)
Inductive Outcome :=
| Returned (st : State)
| Threw (st : State).


(** The updates [startBuild(targetPlatform)] passes to [setBuildStatuses]
    before it builds the download, in order. *)
Definition progressUpdates (target : jsstring)
    : list (list BuildStatus → list BuildStatus) :=
  forTarget target beginBuild
  :: List.map (λ step, forTarget target (withProgress step.1)) buildSteps.

Definition buildCompleted (target : jsstring) : Toast :=
  {| title := lit "Build Completed!";
     description :=
       target
       ++ lit " build info is ready for download. Note: This contains build information, not the actual app file.";
     variant := None |}.

(** [startBuild(targetPlatform)].  [now] is the instant [new Date()] reads
    after the last step. *)
Definition startBuild (target : jsstring) (now : Z) (st : State) : Outcome :=
  match generatedApp st with
  | None => Returned st
  | Some app =>
      let st1 := foldl (λ s u, setBuildStatuses u s) st (progressUpdates target) in
      let info := {| appName := name app; targetPlatform := target;
                     buildDate := now |} in
      if btoa_throws info then Threw st1
      else
        let st2 := setBuildStatuses (forTarget target (completeBuild info)) st1 in
        Returned (toast (buildCompleted target) st2)
  end.



(** What the steps of a build leave of an entry of its platform, and what
    its completion makes of it. *)
Definition stalled (s : BuildStatus) : BuildStatus :=
  {| build_platform := build_platform s; status := building;
     downloadUrl := downloadUrl s; progress := 100 |}.

Definition finished (info : BuildInfo) (s : BuildStatus) : BuildStatus :=
  {| build_platform := build_platform s; status := completed;
     downloadUrl := Some info; progress := 100 |}.

(** The loop of [startAllBuilds]; the [i]-th build reads the clock at
    [clock i].  A build that throws ends the loop. *)
Fixpoint buildEach (clock : nat → Z) (i : nat) (ps : list jsstring) (st : State)
    : Outcome :=
  match ps with
  | [] => Returned st
  | p :: rest =>
      match startBuild p (clock i) st with
      | Returned st' => buildEach clock (S i) rest st'
      | Threw st' => Threw st'
      end
  end.

(** [startAllBuilds()] *)
Definition startAllBuilds (clock : nat → Z) (st : State) : Outcome :=
  match generatedApp st with
  | None => Returned st
  | Some app => buildEach clock 0 (platforms app) st
  end.

(** *** The naming rule in the words of the design description

    A character is a UTF-16 code unit, as [length], [charAt] and [slice]
    count them. *)

(** Splitting on spaces: a space closes the word before it and opens the
    next one; any other character joins the word it stands in. *)
Definition words_on_spaces (s : jsstring) : list jsstring :=
  foldr (λ c ws,
           if decide (c = 32%N) then [] :: ws
           else match ws with
                | w :: rest => (c :: w) :: rest
                | [] => [[c]]
                end)
        [[]] s.

Definition is_stop_word (w : jsstring) : Prop :=
  w = lit "with" ∨ w = lit "that" ∨ w = lit "for" ∨ w = lit "and"
  ∨ w = lit "the" ∨ w = lit "app" ∨ w = lit "application".

(** A word survives when it is longer than three characters and no stop
    word. *)
Definition survives (w : jsstring) : Prop :=
  3 < List.length w ∧ ¬ is_stop_word w.

#[global] Instance survives_dec w : Decision (survives w).
Proof. unfold survives, is_stop_word. apply _. Defined.

Definition first_two {A} (l : list A) : list A :=
  match l with
  | a :: b :: _ => [a; b]
  | _ => l
  end.

Section NamingRule.

Context `{Builtins}.

(** Capitalising a word: its first character in upper case, the rest as
    it is. *)
Definition capitalize (w : jsstring) : jsstring :=
  match w with
  | [] => []
  | c :: r => toUpperCase [c] ++ r
  end.

Definition appName_spec (idea : jsstring) : jsstring :=
  match first_two (filter survives (words_on_spaces (toLowerCase idea))) with
  | [] => lit "MyApp"
  | ws => concat (capitalize <$> ws)
  end.

End NamingRule.

(** A state with an idea typed and two platforms selected, for the
    examples. *)
Definition sample_state : State :=
  {| idea := lit "  A simple todo app ";
     platform := {| web := true; android := true; ios := false |};
     buildSystem := capacitor;
     isGenerating := false;
     generatedApp := None;
     previewMode := false;
     buildStatuses := [];
     toasts := [] |}.

Definition blank_state : State :=
  {| idea := lit "   ";
     platform := {| web := true; android := false; ios := false |};
     buildSystem := eas;
     isGenerating := false;
     generatedApp := None;
     previewMode := false;
     buildStatuses := [];
     toasts := [] |}.

Definition sample_clock (i : nat) : Z := (1700000000000 + Z.of_nat i)%Z.

(** A state whose generated application has a name in Cyrillic letters
    (U+0421 U+043F U+0438 U+0441 U+043E U+043A), with its web build
    pending. *)
Definition cyrillic_state : State :=
  {| idea := [1089; 1087; 1080; 1089; 1086; 1082]%N;
     platform := {| web := true; android := false; ios := false |};
     buildSystem := eas;
     isGenerating := false;
     generatedApp :=
       Some {| name := [1057; 1087; 1080; 1089; 1086; 1082]%N;
               platforms := [lit "web"];
               buildCommand := lit "vercel --prod";
               generatedFiles := [];
               instructions := [];
               assumptions := [] |};
     previewMode := true;
     buildStatuses :=
       [ {| build_platform := lit "web"; status := pending;
            downloadUrl := None; progress := 0 |} ];
     toasts := [] |}.

End Page.

(** * Facts about the embedding *)

(** A keyword list is checked against a concrete string one keyword at a
    time. *)
Ltac none_mentioned :=
  unfold JS.mentions_none;
  repeat (constructor; [vm_compute; reflexivity|]);
  constructor.

(** ** Arrays and sets *)
Section JSFacts.

Lemma Set_add_NoDup s x : NoDup s → NoDup (JS.Set_add s x).
Proof.
  intros Hs. unfold JS.Set_add. case_bool_decide as Hin; [done|].
  apply NoDup_app. repeat split; [done| |apply NoDup_singleton].
  intros y Hy Hy'. apply list_elem_of_singleton in Hy'. by subst.
Qed.

Lemma foldl_Set_add_NoDup a : ∀ s, NoDup s → NoDup (foldl JS.Set_add s a).
Proof.
  induction a as [|x a IH]; intros s Hs; simpl; [done|].
  apply IH. by apply Set_add_NoDup.
Qed.

Lemma new_Set_NoDup a : NoDup (JS.new_Set a).
Proof. apply foldl_Set_add_NoDup. constructor. Qed.

Lemma NoDup_take {A} (l : list A) n : NoDup l → NoDup (take n l).
Proof.
  intros H. rewrite <- (take_drop n l) in H.
  by apply NoDup_app in H as (? & _ & _).
Qed.



End JSFacts.

(** ** The requirements endpoint *)
Section RequirementsFacts.

Import Requirements.

Implicit Types (transcript : string) (history : list (string * string)) (rnd : Q).

Lemma analyzed_platforms_cases transcript history rnd :
  let inc := JS.includes (JS.toLowerCase transcript) in
  platforms (requirements (analyzeTranscriptForRequirements transcript history rnd)) =
    let p := push_if (inc "ios" || inc "iphone") "ios"
               (push_if (inc "android" || inc "mobile") "android"
                  (push_if (inc "web" || inc "website") "web" [])) in
    push_if (Nat.eqb (List.length p) 0) "web" p.
Proof. reflexivity. Qed.

(** C4. A transcript whose lower-cased text mentions none of the platform
    keywords is analysed to the platforms [web] alone, and no transcript
    is analysed to an empty list of platforms. *)
Theorem platforms_default_to_web transcript history rnd :
  (JS.mentions_none (JS.toLowerCase transcript) platformKeywords →
   platforms (requirements (analyzeTranscriptForRequirements transcript history rnd))
     = ["web"])
  ∧ platforms (requirements (analyzeTranscriptForRequirements transcript history rnd))
      ≠ [].
Proof.
  rewrite analyzed_platforms_cases. cbv zeta. split.
  - intros H. unfold JS.mentions_none, platformKeywords in H.
    repeat (apply Forall_cons in H as [-> H]). reflexivity.
  - destruct (_ || _), (_ || _), (_ || _); simpl; discriminate.
Qed.

Lemma platforms_default_to_web_witness :
  JS.mentions_none (JS.toLowerCase "A Budget tracker for my family") platformKeywords
  ∧ platforms (requirements
      (analyzeTranscriptForRequirements "A Budget tracker for my family" [] (9 # 10)))
    = ["web"].
Proof.
  split.
  - none_mentioned.
  - apply (platforms_default_to_web "A Budget tracker for my family" [] (9 # 10)).
    none_mentioned.
Defined.

Lemma collectFeatures_none s :
  JS.mentions_none s domainKeywords → collectFeatures s = [].
Proof.
  unfold JS.mentions_none, domainKeywords, collectFeatures, featureKeywords.
  simpl. intros H.
  repeat (apply Forall_cons in H as [-> H]). reflexivity.
Qed.

Lemma analyzed_coreFeatures transcript history rnd :
  coreFeatures (requirements (analyzeTranscriptForRequirements transcript history rnd)) =
    let found := collectFeatures (JS.toLowerCase transcript) in
    take 5 (JS.new_Set
              (if Nat.eqb (List.length found) 0 then genericFeatures else found)).
Proof. reflexivity. Qed.

(** C5. The analysed [coreFeatures] have at most five entries and no
    entry twice; when the lower-cased transcript mentions no domain
    keyword they are the three generic features. *)
Theorem coreFeatures_bounded_unique transcript history rnd :
  let feats :=
    coreFeatures (requirements (analyzeTranscriptForRequirements transcript history rnd)) in
  List.length feats ≤ 5
  ∧ NoDup feats
  ∧ (JS.mentions_none (JS.toLowerCase transcript) domainKeywords →
     feats = ["user interface"; "data management"; "responsive design"]).
Proof.
  cbv zeta. rewrite analyzed_coreFeatures. split; [|split].
  - rewrite length_take. lia.
  - apply NoDup_take, new_Set_NoDup.
  - intros H. cbv zeta. rewrite (collectFeatures_none _ H). reflexivity.
Qed.

Lemma coreFeatures_bounded_unique_witness :
  JS.mentions_none (JS.toLowerCase "Something for my cat") domainKeywords
  ∧ coreFeatures (requirements
      (analyzeTranscriptForRequirements "Something for my cat" [] (9 # 10)))
    = ["user interface"; "data management"; "responsive design"].
Proof.
  split.
  - none_mentioned.
  - apply (coreFeatures_bounded_unique "Something for my cat" [] (9 # 10)).
    none_mentioned.
Defined.

Lemma num_lt_true a b : num_lt a b = true ↔ (a < b)%Q.
Proof.
  unfold num_lt. rewrite Qlt_alt. destruct (a ?= b)%Q; split; congruence.
Qed.

Lemma num_ge_true a b : num_ge a b = true ↔ (b <= a)%Q.
Proof.
  unfold num_ge. rewrite (Qge_alt a b). destruct (a ?= b)%Q; split; congruence.
Qed.

(** C6. The type of the response is chosen as the interface description
    says: clarification below confidence 0.8, clarification for empty
    platforms, confirmation for three or more features at confidence 0.8
    or more, clarification otherwise. *)
Theorem response_selector_refines (analysis : Analysis) (currentState : string) :
  type (generateConversationResponse analysis currentState)
  = selector_spec (confidence analysis)
                  (platforms (requirements analysis))
                  (coreFeatures (requirements analysis)).
Proof.
  unfold generateConversationResponse, selector_spec.
  destruct (num_lt (confidence analysis) num_0_8) eqn:Hlt.
  { apply num_lt_true in Hlt.
    destruct (Qlt_le_dec _ _) as [_|Hle]; [done|].
    by apply Qle_not_lt in Hle. }
  destruct (Qlt_le_dec _ _) as [Hlt'|Hle].
  { apply num_lt_true in Hlt'. congruence. }
  destruct (platforms (requirements analysis)) as [|p ps].
  { reflexivity. }
  change (Nat.eqb (List.length (p :: ps)) 0) with false. cbv iota.
  rewrite decide_False by done.
  destruct (_ && _) eqn:Hc; cbn [type].
  - apply andb_true_iff in Hc as [H3 Hge].
    apply Nat.leb_le in H3. apply num_ge_true in Hge.
    by rewrite decide_True.
  - rewrite decide_False; [done|]. intros [H3 Hge].
    apply Nat.leb_le in H3. apply num_ge_true in Hge.
    rewrite H3, Hge in Hc. discriminate.
Qed.

(** C9. The selector never answers with a completion, so the endpoint
    hands back the state it was given, or [gathering_requirements] when
    the request carried none. *)
Theorem endpoint_never_completes :
  (∀ (analysis : Analysis) (currentState : string),
     type (generateConversationResponse analysis currentState) = clarification
     ∨ type (generateConversationResponse analysis currentState) = confirmation)
  ∧ (∀ (body : ProcessRequirementsRequest) rnd,
       type (conversationResponse (POST body rnd)) ≠ completion
       ∧ nextState (POST body rnd)
         = default "gathering_requirements" (currentState body)).
Proof.
  assert (∀ a s, type (generateConversationResponse a s) = clarification
                 ∨ type (generateConversationResponse a s) = confirmation) as Hsel.
  { intros a s. unfold generateConversationResponse.
    repeat match goal with |- context [if ?c then _ else _] => destruct c end;
      simpl; auto. }
  split; [exact Hsel|].
  intros body rnd. unfold POST. simpl.
  destruct (Hsel (analyzeTranscriptForRequirements (transcript body) (history body) rnd)
              (default "gathering_requirements" (currentState body))) as [-> | ->];
    by split.
Qed.

End RequirementsFacts.

(** ** The template generator *)
Section GeneratorFacts.

Import Generator.


End GeneratorFacts.

(** ** The conversation route *)
Section ConversationFacts.

Import Conversation.

Variable env : Env.

Implicit Types (w : World) (conv : ConversationState) (cid message : string).

Ltac run_handler :=
  cbv [handleStartConversation handleSendMessage handleGetConversation
       handleEndConversation bind ret get_conversation set_conversation
       newMessage generateMessageId generateConversationId now random36];
  cbn [conversations reads].

(** The reply depends on the step, the context and the requirements of
    the conversation, not on its messages. *)
Lemma generateAIResponse_push conv (m : ConversationMessage) message :
  generateAIResponse (push_message conv m) message = generateAIResponse conv message.
Proof. reflexivity. Qed.

(** One [send_message] on a stored conversation: the reply, and the
    conversation the store holds afterwards. *)
Lemma handleSendMessage_found w cid conv message :
  conversations w !! cid = Some conv →
  let ai := generateAIResponse conv message in
  ∃ u a conv' w',
    handleSendMessage env cid message w
      = (SendOk u a conv' (requiresAction ai), w')
    ∧ conversations w' = <[cid := conv']> (conversations w)
    ∧ role u = user ∧ content u = message
    ∧ role a = assistant ∧ content a = ai_content ai
    ∧ messages conv' = messages conv ++ [u; a]
    ∧ currentStep conv' = nextStep ai
    ∧ extractedRequirements conv'
      = merged (extractedRequirements conv) (ai_extractedRequirements ai)
    ∧ context conv' = context conv.
Proof.
  intros Hfound ai. run_handler. rewrite Hfound.
  rewrite !generateAIResponse_push. fold ai.
  unfold merged.
  destruct (ai_extractedRequirements ai);
    (do 4 eexists; split; [reflexivity|]);
    cbn [conversations role content messages currentStep extractedRequirements
         context push_message set_currentStep set_extractedRequirements];
    rewrite <- app_assoc; by repeat split.
Qed.

(** [start] stores a fresh conversation under the identifier it returns. *)
Lemma handleStartConversation_result userId w :
  ∃ cid g st w',
    handleStartConversation env userId w = (StartOk cid g st, w')
    ∧ conversations w' = <[cid := st]> (conversations w)
    ∧ conversationId st = cid
    ∧ currentStep st = greeting
    ∧ messages st = [g]
    ∧ role g = assistant ∧ content g = greetingText
    ∧ extractedRequirements st = None.
Proof.
  run_handler. do 4 eexists. split; [reflexivity|]. by repeat split.
Qed.

(** C7. [start] answers with a conversation in step [greeting] that is
    stored under the returned identifier, holds exactly one message, the
    assistant's greeting, and has no extracted requirements yet. *)
Theorem start_creates_greeting (userId : string) w :
  ∃ cid g st w',
    handleStartConversation env userId w = (StartOk cid g st, w')
    ∧ conversations w' !! cid = Some st
    ∧ currentStep st = greeting
    ∧ messages st = [g]
    ∧ role g = assistant
    ∧ content g = greetingText
    ∧ extractedRequirements st = None.
Proof.
  destruct (handleStartConversation_result userId w)
    as (cid & g & st & w' & Hrun & Hstore & _ & Hstep & Hmsgs & Hrole & Htext & Hreq).
  exists cid, g, st, w'. repeat split; try done.
  rewrite Hstore. apply lookup_insert_eq.
Qed.

(** C3. On an identifier the store does not hold, [send_message],
    [get_conversation] and [end_conversation] answer 404 with
    [Conversation not found] and leave the world as it was. *)
Theorem unknown_conversation_not_found w cid message :
  conversations w !! cid = None →
  handleSendMessage env cid message w = (Error "Conversation not found" 404, w)
  ∧ handleGetConversation cid w = (Error "Conversation not found" 404, w)
  ∧ handleEndConversation env cid w = (Error "Conversation not found" 404, w).
Proof.
  intros Hnone. run_handler. rewrite Hnone. by repeat split.
Qed.

Lemma is_user_true (m : ConversationMessage) : role m = user → is_user m = true.
Proof. intros H. unfold is_user. by rewrite H. Qed.

Lemma is_user_false (m : ConversationMessage) : role m = assistant → is_user m = false.
Proof. intros H. unfold is_user. by rewrite H. Qed.

(** A run of sends on a stored conversation extends its history by one
    user message and one assistant message per send, in that order. *)
Lemma send_all_history (msgs : list string) : ∀ w cid conv,
  conversations w !! cid = Some conv →
  ∃ rs w' conv' tail,
    send_all env cid msgs w = (rs, w')
    ∧ Forall (λ r, is_SendOk r = true) rs
    ∧ List.length rs = List.length msgs
    ∧ conversations w' !! cid = Some conv'
    ∧ messages conv' = messages conv ++ tail
    ∧ role <$> tail = concat (replicate (List.length msgs) [user; assistant])
    ∧ content <$> List.filter is_user tail = msgs.
Proof.
  induction msgs as [|m msgs IH]; intros w cid conv Hfound.
  - exists [], w, conv, []. rewrite app_nil_r. by repeat split.
  - destruct (handleSendMessage_found w cid conv m Hfound)
      as (u & a & conv1 & w1 & Hsend & Hstore & Hu & Hcu & Ha & _ & Hmsgs & _).
    assert (conversations w1 !! cid = Some conv1) as Hfound1.
    { rewrite Hstore. apply lookup_insert_eq. }
    destruct (IH w1 cid conv1 Hfound1)
      as (rs & w' & conv' & tail & Hall & Hok & Hlen & Hfound' & Hmsgs' & Hroles & Huser).
    eexists (_ :: rs), w', conv', (u :: a :: tail).
    split; [|repeat split].
    + cbn [send_all]. unfold bind at 1. rewrite Hsend.
      unfold bind at 1. rewrite Hall. reflexivity.
    + by constructor.
    + cbn. by rewrite Hlen.
    + done.
    + rewrite Hmsgs', Hmsgs, <- app_assoc. reflexivity.
    + cbn. by rewrite Hu, Ha, Hroles.
    + cbn [List.filter].
      rewrite (is_user_true u Hu), (is_user_false a Ha).
      cbn. by rewrite Hcu, Huser.
Qed.

(** C2. After [start] and [N] sends on the conversation it created, every
    send has succeeded and the stored history has [2 * N + 1] messages:
    the assistant's greeting, then for each send the user's message
    followed by the assistant's reply. *)
Theorem history_after_sends (userId : string) (msgs : list string) w :
  ∃ cid g st w1 rs w2 conv,
    handleStartConversation env userId w = (StartOk cid g st, w1)
    ∧ send_all env cid msgs w1 = (rs, w2)
    ∧ Forall (λ r, is_SendOk r = true) rs
    ∧ List.length rs = List.length msgs
    ∧ conversations w2 !! cid = Some conv
    ∧ List.length (messages conv) = 2 * List.length msgs + 1
    ∧ role <$> messages conv
      = assistant :: concat (replicate (List.length msgs) [user; assistant])
    ∧ head (messages conv) = Some g
    ∧ content g = greetingText
    ∧ content <$> List.filter is_user (messages conv) = msgs.
Proof.
  destruct (handleStartConversation_result userId w)
    as (cid & g & st & w1 & Hrun & Hstore & _ & _ & Hmsgs & Hrole & Htext & _).
  assert (conversations w1 !! cid = Some st) as Hfound.
  { rewrite Hstore. apply lookup_insert_eq. }
  destruct (send_all_history msgs w1 cid st Hfound)
    as (rs & w2 & conv & tail & Hall & Hok & Hlen & Hfound' & Hmsgs' & Hroles & Huser).
  exists cid, g, st, w1, rs, w2, conv.
  rewrite Hmsgs in Hmsgs'. rewrite Hmsgs'.
  repeat split; try done.
  - cbn. apply (f_equal List.length) in Hroles.
    rewrite length_fmap in Hroles. rewrite Hroles.
    clear. induction msgs as [|m msgs IH]; cbn in *; lia.
  - cbn. by rewrite Hrole, Hroles.
  - cbn [app List.filter]. by rewrite (is_user_false g Hrole).
Qed.

(** C1, as the code has it. A [send_message] on a conversation in step
    [completion] takes the default branch of [generateAIResponse]: the
    user's message and the generic prompt of the assistant are appended to
    the history, in this order, and the conversation is put back to step
    [greeting]; it does not stay in [completion]. *)
Theorem completion_returns_to_greeting w cid conv message :
  conversations w !! cid = Some conv →
  currentStep conv = completion →
  ∃ u a conv' w',
    handleSendMessage env cid message w = (SendOk u a conv' None, w')
    ∧ conversations w' !! cid = Some conv'
    ∧ messages conv' = messages conv ++ [u; a]
    ∧ role u = user ∧ content u = message
    ∧ role a = assistant
    ∧ content a = "I'm here to help you create your app! What would you like to discuss?"
    ∧ currentStep conv' = greeting
    ∧ extractedRequirements conv' = extractedRequirements conv.
Proof.
  intros Hfound Hstep.
  destruct (handleSendMessage_found w cid conv message Hfound)
    as (u & a & conv' & w' & Hsend & Hstore & Hu & Hcu & Hra & Ha & Hmsgs
        & Hnext & Hreq & _).
  unfold generateAIResponse in *. rewrite Hstep in *. cbn in *.
  exists u, a, conv', w'. repeat split; try done.
  rewrite Hstore. apply lookup_insert_eq.
Qed.

Lemma analyzed_message_platforms message (ctx : Context) :
  JS.mentions_none (JS.toLowerCase message) analysedPlatformKeywords →
  initialRequirements (analyzeUserMessage message ctx) !! "platforms" = Some []
  ∧ platformRequirements (analyzeUserMessage message ctx) !! "platforms" = Some [].
Proof.
  intros H. unfold JS.mentions_none, analysedPlatformKeywords in H.
  unfold analyzeUserMessage. cbv zeta.
  cbn [initialRequirements platformRequirements].
  rewrite lookup_insert_eq, lookup_singleton_eq.
  repeat (apply Forall_cons in H as [-> H]). by split.
Qed.

(** C10. A message whose lower-cased text includes none of [web],
    [android], [mobile], [ios], [iphone] is analysed to an empty list of
    platforms, with no fallback; when such a message opens a conversation
    with an app idea, [send_message] stores requirements whose platforms
    are empty. *)
Theorem route_platforms_can_be_empty :
  (∀ message (ctx : Context),
     JS.mentions_none (JS.toLowerCase message) analysedPlatformKeywords →
     initialRequirements (analyzeUserMessage message ctx) !! "platforms" = Some []
     ∧ platformRequirements (analyzeUserMessage message ctx) !! "platforms" = Some [])
  ∧ (∀ w cid conv message,
       conversations w !! cid = Some conv →
       currentStep conv = greeting →
       containsAppIdea (JS.toLowerCase message) = true →
       JS.mentions_none (JS.toLowerCase message) analysedPlatformKeywords →
       ∃ conv' r,
         stored cid (handleSendMessage env cid message w) = Some conv'
         ∧ extractedRequirements conv' = Some r
         ∧ r !! "platforms" = Some []).
Proof.
  split; [apply analyzed_message_platforms|].
  intros w cid conv message Hfound Hstep Hidea Hnone.
  destruct (handleSendMessage_found w cid conv message Hfound)
    as (u & a & conv' & w' & Hsend & Hstore & _ & _ & _ & _ & _ & _ & Hreq & _).
  unfold generateAIResponse in Hreq. rewrite Hstep, Hidea in Hreq.
  cbn [ai_extractedRequirements merged] in Hreq.
  exists conv', (initialRequirements (analyzeUserMessage message (context conv))).
  unfold stored. rewrite Hsend. cbn [snd]. rewrite Hstore.
  split; [apply lookup_insert_eq|]. split; [done|].
  by apply analyzed_message_platforms.
Qed.

End ConversationFacts.

(** ** The theorems at concrete runs *)
Section ConversationExamples.

Import Conversation.

Lemma unknown_conversation_not_found_witness :
  conversations empty_world !! "conv_0_missing" = None
  ∧ handleSendMessage sample_env "conv_0_missing" "hello" empty_world
    = (Error "Conversation not found" 404, empty_world).
Proof.
  split; [reflexivity|].
  apply (unknown_conversation_not_found sample_env empty_world "conv_0_missing" "hello").
  reflexivity.
Defined.

(** C1, as the claim states it, fails: the conversation started in
    [started_world] reaches [completion] after three sends, and the next
    [send_message] leaves it in [greeting]. *)
Lemma completion_regresses_counterexample :
  currentStep <$> conversations completed_world !! sample_id = Some completion
  ∧ currentStep <$>
      stored sample_id
        (handleSendMessage sample_env sample_id "Thanks!" completed_world)
    = Some greeting
  ∧ greeting ≠ completion.
Proof. split; [|split]; [vm_compute; reflexivity..|discriminate]. Qed.

Lemma completion_returns_to_greeting_witness :
  ∃ conv,
    conversations completed_world !! sample_id = Some conv
    ∧ currentStep conv = completion
    ∧ ∃ u a conv' w',
        handleSendMessage sample_env sample_id "Thanks!" completed_world
          = (SendOk u a conv' None, w')
        ∧ conversations w' !! sample_id = Some conv'
        ∧ messages conv' = messages conv ++ [u; a]
        ∧ role u = user ∧ content u = "Thanks!"
        ∧ role a = assistant
        ∧ content a
          = "I'm here to help you create your app! What would you like to discuss?"
        ∧ currentStep conv' = greeting
        ∧ extractedRequirements conv' = extractedRequirements conv.
Proof.
  eexists. split; [vm_compute; reflexivity|]. split; [reflexivity|].
  apply (completion_returns_to_greeting sample_env completed_world sample_id);
    [vm_compute; reflexivity|reflexivity].
Defined.

Lemma route_platforms_can_be_empty_witness :
  ∃ conv,
    conversations started_world !! sample_id = Some conv
    ∧ currentStep conv = greeting
    ∧ containsAppIdea (JS.toLowerCase "I want to build a todo app") = true
    ∧ JS.mentions_none (JS.toLowerCase "I want to build a todo app")
        analysedPlatformKeywords
    ∧ ∃ conv' r,
        stored sample_id
          (handleSendMessage sample_env sample_id "I want to build a todo app"
             started_world)
          = Some conv'
        ∧ extractedRequirements conv' = Some r
        ∧ r !! "platforms" = Some [].
Proof.
  eexists. split; [vm_compute; reflexivity|]. split; [reflexivity|].
  split; [reflexivity|]. split; [none_mentioned|].
  eapply (proj2 (route_platforms_can_be_empty sample_env));
    [vm_compute; reflexivity|reflexivity|reflexivity|none_mentioned].
Defined.

End ConversationExamples.

(** * Further properties of the code *)

(** ** The conversation route, continued *)
Section ConversationMore.

Import Conversation ConversationRuns.

Variable env : Env.

Implicit Types (w : World) (conv : ConversationState) (cid message : string).

Ltac run_route :=
  cbv [handleStartConversation handleSendMessage handleGetConversation
       handleEndConversation bind ret get_conversation set_conversation
       newMessage generateMessageId generateConversationId now random36];
  cbn [conversations reads].

(** One [end_conversation] on a stored conversation. *)
Lemma handleEndConversation_found w cid conv :
  conversations w !! cid = Some conv →
  ∃ m w',
    let conv' := set_currentStep (push_message conv m) completion in
    handleEndConversation env cid w
      = (EndOk m (extractedRequirements conv) (generateConversationSummary conv'), w')
    ∧ conversations w' = <[cid := conv']> (conversations w)
    ∧ role m = assistant ∧ content m = closingText.
Proof.
  intros Hfound. run_route. rewrite Hfound.
  do 2 eexists. cbv zeta. split; [reflexivity|]. by repeat split.
Qed.

(** X1. A conversation that was just answered is what [get_conversation]
    returns next, and reading it changes nothing. *)
Theorem get_returns_what_send_stored w cid conv message :
  conversations w !! cid = Some conv →
  ∃ u a conv' flag w',
    handleSendMessage env cid message w = (SendOk u a conv' flag, w')
    ∧ handleGetConversation cid w' = (GetOk conv', w').
Proof.
  intros Hfound.
  destruct (handleSendMessage_found env w cid conv message Hfound)
    as (u & a & conv' & w' & Hsend & Hstore & _).
  do 5 eexists. split; [exact Hsend|].
  run_route. rewrite Hstore, lookup_insert_eq. reflexivity.
Qed.

(** X2. [send_message] and [end_conversation] on one identifier leave the
    conversations stored under every other identifier as they were. *)
Theorem other_conversations_untouched w cid other message :
  other ≠ cid →
  conversations (handleSendMessage env cid message w).2 !! other
    = conversations w !! other
  ∧ conversations (handleEndConversation env cid w).2 !! other
    = conversations w !! other.
Proof.
  intros Hne. destruct (conversations w !! cid) as [conv|] eqn:Hfound.
  - destruct (handleSendMessage_found env w cid conv message Hfound)
      as (u & a & conv' & w' & Hsend & Hstore & _).
    destruct (handleEndConversation_found w cid conv Hfound)
      as (m & w'' & Hend & Hstore' & _).
    rewrite Hsend, Hend. cbn [snd]. rewrite Hstore, Hstore'.
    by rewrite !lookup_insert_ne.
  - run_route. by rewrite Hfound.
Qed.

(** X3. [end_conversation] on a stored conversation appends the closing
    message of the assistant and nothing else, puts the conversation in
    [completion], and hands back the requirements it held, which stay
    stored. *)
Theorem end_appends_closing_message w cid conv :
  conversations w !! cid = Some conv →
  ∃ m summary w' conv',
    handleEndConversation env cid w
      = (EndOk m (extractedRequirements conv) summary, w')
    ∧ conversations w' !! cid = Some conv'
    ∧ messages conv' = messages conv ++ [m]
    ∧ role m = assistant ∧ content m = closingText
    ∧ currentStep conv' = completion
    ∧ extractedRequirements conv' = extractedRequirements conv.
Proof.
  intros Hfound.
  destruct (handleEndConversation_found w cid conv Hfound)
    as (m & w' & Hrun & Hstore & Hrole & Htext).
  do 4 eexists. split; [exact Hrun|].
  rewrite Hstore, lookup_insert_eq. by repeat split.
Qed.

(** X4. The old history is a prefix of the new one after a send and after an
    end, and requirements that were set are not reset to [null]. *)
Theorem history_is_append_only w cid conv message :
  conversations w !! cid = Some conv →
  (∃ conv',
     conversations (handleSendMessage env cid message w).2 !! cid = Some conv'
     ∧ messages conv `prefix_of` messages conv'
     ∧ (is_Some (extractedRequirements conv) → is_Some (extractedRequirements conv')))
  ∧ (∃ conv',
       conversations (handleEndConversation env cid w).2 !! cid = Some conv'
       ∧ messages conv `prefix_of` messages conv'
       ∧ extractedRequirements conv' = extractedRequirements conv).
Proof.
  intros Hfound. split.
  - destruct (handleSendMessage_found env w cid conv message Hfound)
      as (u & a & conv' & w' & Hsend & Hstore & _ & _ & _ & _ & Hmsgs & _ & Hreq & _).
    exists conv'. rewrite Hsend. cbn [snd]. rewrite Hstore, lookup_insert_eq.
    split; [done|]. split.
    + rewrite Hmsgs. by apply prefix_app_r.
    + rewrite Hreq. unfold merged. by destruct (ai_extractedRequirements _).
  - destruct (handleEndConversation_found w cid conv Hfound)
      as (m & w' & Hend & Hstore & _).
    eexists. rewrite Hend. cbn [snd]. rewrite Hstore, lookup_insert_eq.
    split; [done|]. split; [|done].
    cbn. by apply prefix_app_r.
Qed.

(** X5. The reply asks for an action exactly when it moves the conversation
    to [completion], and that happens only from [clarification] on a
    confirming message. *)
Theorem requiresAction_iff_completion conv message :
  (requiresAction (generateAIResponse conv message) = Some true
   ↔ nextStep (generateAIResponse conv message) = completion)
  ∧ (nextStep (generateAIResponse conv message) = completion →
     currentStep conv = clarification
     ∧ containsConfirmation (JS.toLowerCase message) = true).
Proof.
  unfold generateAIResponse.
  destruct (currentStep conv);
    repeat match goal with
           | |- context [if ?c then _ else _] => destruct c eqn:?
           end;
    cbn; repeat split; intros; try done.
Qed.

(** A reply moves a conversation at most one step forward. *)
Lemma nextStep_rank conv message :
  rank (nextStep (generateAIResponse conv message)) ≤ S (rank (currentStep conv)).
Proof.
  unfold generateAIResponse.
  destruct (currentStep conv);
    repeat match goal with
           | |- context [if ?c then _ else _] => destruct c
           end;
    cbn; lia.
Qed.

Lemma send_all_rank (msgs : list string) : ∀ w cid conv,
  conversations w !! cid = Some conv →
  ∃ conv',
    conversations (send_all env cid msgs w).2 !! cid = Some conv'
    ∧ rank (currentStep conv') ≤ rank (currentStep conv) + List.length msgs.
Proof.
  induction msgs as [|m msgs IH]; intros w cid conv Hfound.
  - exists conv. split; [done|]. cbn. lia.
  - destruct (handleSendMessage_found env w cid conv m Hfound)
      as (u & a & conv1 & w1 & Hsend & Hstore & _ & _ & _ & _ & _ & Hstep & _).
    assert (conversations w1 !! cid = Some conv1) as Hfound1.
    { rewrite Hstore. apply lookup_insert_eq. }
    destruct (IH w1 cid conv1 Hfound1) as (conv' & Hfound' & Hrank).
    exists conv'. split.
    + cbn [send_all]. unfold bind at 1. rewrite Hsend.
      unfold bind at 1. destruct (send_all env cid msgs w1) as [rs w2].
      exact Hfound'.
    + pose proof (nextStep_rank conv m) as Hone. rewrite <- Hstep in Hone.
      cbn [List.length]. lia.
Qed.

(** X6. After [start] and [N] sends a conversation is at most [N] steps past
    [greeting]: no conversation reaches [completion] by fewer than three
    sends. *)
Theorem completion_needs_three_sends (userId : string) (msgs : list string) w :
  ∃ cid g st w1 conv,
    handleStartConversation env userId w = (StartOk cid g st, w1)
    ∧ conversations (send_all env cid msgs w1).2 !! cid = Some conv
    ∧ rank (currentStep conv) ≤ List.length msgs
    ∧ (List.length msgs < 3 → currentStep conv ≠ completion).
Proof.
  destruct (handleStartConversation_result env userId w)
    as (cid & g & st & w1 & Hrun & Hstore & _ & Hstep & _).
  assert (conversations w1 !! cid = Some st) as Hfound.
  { rewrite Hstore. apply lookup_insert_eq. }
  destruct (send_all_rank msgs w1 cid st Hfound) as (conv & Hfound' & Hrank).
  rewrite Hstep in Hrank. cbn in Hrank.
  exists cid, g, st, w1, conv. repeat split; try done.
  intros Hlen Hc. rewrite Hc in Hrank. cbn in Hrank. lia.
Qed.

End ConversationMore.

(** ** Substrings *)
Section SubstringFacts.

Lemma startsWith_app (k k' : string) : ∀ s,
  JS.startsWith s (k +:+ k') = true → JS.startsWith s k = true.
Proof.
  induction k as [|a k IH]; intros s H; [by destruct s|].
  change (String a k +:+ k') with (String a (k +:+ k')) in H.
  destruct s as [|b s]; [done|]. cbn [JS.startsWith] in *.
  apply andb_true_iff in H as [Hab Hrest].
  rewrite Hab. cbn. by apply IH.
Qed.

(** A string that includes a keyword includes every prefix of it. *)
Lemma includes_app (k k' : string) : ∀ s,
  JS.includes s (k +:+ k') = true → JS.includes s k = true.
Proof.
  induction s as [|c s IH]; cbn [JS.includes]; intros H.
  - apply orb_true_iff in H as [H|H]; [|done].
    apply startsWith_app in H. by rewrite H.
  - apply orb_true_iff in H as [H|H].
    + apply startsWith_app in H. by rewrite H.
    + rewrite (IH H). apply orb_true_r.
Qed.

Lemma includes_website (s : string) :
  JS.includes s "website" = true → JS.includes s "web" = true.
Proof. apply (includes_app "web" "site"). Qed.

End SubstringFacts.

(** ** The conversation route: what is stored *)
Section ConversationStore.

Import Conversation ConversationRuns.

Variable env : Env.

Implicit Types (w : World) (conv : ConversationState) (cid message : string).

(** The platforms [analyzeUserMessage] collects from a message. *)
Lemma analysed_platforms message (ctx : Context) :
  let inc := JS.includes (JS.toLowerCase message) in
  platformRequirements (analyzeUserMessage message ctx)
  = {[ "platforms" :=
         push_if (inc "ios" || inc "iphone") "ios"
           (push_if (inc "android" || inc "mobile") "android"
              (push_if (inc "web") "web" [])) ]}.
Proof. reflexivity. Qed.

Lemma containsPlatformInfo_platforms message (ctx : Context) :
  containsPlatformInfo (JS.toLowerCase message) = true →
  ∃ ps, platformRequirements (analyzeUserMessage message ctx)
        = {[ "platforms" := ps ]} ∧ ps ≠ [].
Proof.
  intros H. rewrite analysed_platforms. cbv zeta.
  eexists. split; [reflexivity|].
  unfold containsPlatformInfo, JS.some in H. cbn [existsb] in H.
  destruct (JS.includes (JS.toLowerCase message) "web") eqn:Hweb.
  { clear H.
    destruct (JS.includes _ "ios" || _), (JS.includes _ "android" || _);
      cbn; discriminate. }
  destruct (JS.includes (JS.toLowerCase message) "website") eqn:Hsite.
  { apply includes_website in Hsite. congruence. }
  destruct (JS.includes (JS.toLowerCase message) "mobile"),
           (JS.includes (JS.toLowerCase message) "android"),
           (JS.includes (JS.toLowerCase message) "ios"),
           (JS.includes (JS.toLowerCase message) "iphone");
    cbn in *; discriminate.
Qed.

(** X7. While requirements are gathered, a message with platform information
    stores a non-empty list of platforms and keeps the features gathered
    before; the conversation stays in [requirement_gathering]. *)
Theorem platform_answer_is_stored w cid conv message :
  conversations w !! cid = Some conv →
  currentStep conv = requirement_gathering →
  containsPlatformInfo (JS.toLowerCase message) = true →
  ∃ conv' r ps,
    stored cid (handleSendMessage env cid message w) = Some conv'
    ∧ currentStep conv' = requirement_gathering
    ∧ extractedRequirements conv' = Some r
    ∧ r !! "platforms" = Some ps ∧ ps ≠ []
    ∧ r !! "features" = default ∅ (extractedRequirements conv) !! "features".
Proof.
  intros Hfound Hstep Hinfo.
  destruct (handleSendMessage_found env w cid conv message Hfound)
    as (u & a & conv' & w' & Hsend & Hstore & _ & _ & _ & _ & _ & Hnext & Hreq & _).
  unfold generateAIResponse in Hnext, Hreq. rewrite Hstep, Hinfo in Hnext, Hreq.
  cbn [nextStep ai_extractedRequirements merged] in Hnext, Hreq.
  destruct (containsPlatformInfo_platforms message (context conv) Hinfo)
    as (ps & Hps & Hne).
  rewrite Hps in Hreq.
  exists conv', (spread (extractedRequirements conv) {["platforms" := ps]}), ps.
  unfold stored. rewrite Hsend. cbn [snd]. rewrite Hstore, lookup_insert_eq.
  repeat split; try done; unfold spread.
  - apply lookup_union_Some_l. apply lookup_singleton_eq.
  - apply lookup_union_r. by apply lookup_singleton_ne.
Qed.

(** X8. While requirements are gathered, a message with feature information
    and no platform information replaces the stored features by those of
    this message, keeps the stored platforms, and moves the conversation to
    [clarification]. *)
Theorem feature_answer_overwrites_features w cid conv message :
  conversations w !! cid = Some conv →
  currentStep conv = requirement_gathering →
  containsPlatformInfo (JS.toLowerCase message) = false →
  containsFeatureInfo (JS.toLowerCase message) = true →
  ∃ conv' r fs,
    stored cid (handleSendMessage env cid message w) = Some conv'
    ∧ currentStep conv' = clarification
    ∧ extractedRequirements conv' = Some r
    ∧ featureRequirements (analyzeUserMessage message (context conv))
      = {[ "features" := fs ]}
    ∧ r !! "features" = Some fs
    ∧ r !! "platforms" = default ∅ (extractedRequirements conv) !! "platforms".
Proof.
  intros Hfound Hstep Hplat Hfeat.
  destruct (handleSendMessage_found env w cid conv message Hfound)
    as (u & a & conv' & w' & Hsend & Hstore & _ & _ & _ & _ & _ & Hnext & Hreq & _).
  unfold generateAIResponse in Hnext, Hreq.
  rewrite Hstep, Hplat, Hfeat in Hnext, Hreq.
  cbn [nextStep ai_extractedRequirements merged] in Hnext, Hreq.
  do 3 eexists.
  unfold stored. rewrite Hsend. cbn [snd]. rewrite Hstore, lookup_insert_eq.
  split; [reflexivity|]. split; [exact Hnext|]. split; [exact Hreq|].
  split; [reflexivity|]. unfold spread. split.
  - apply lookup_union_Some_l. apply lookup_singleton_eq.
  - apply lookup_union_r. by apply lookup_singleton_ne.
Qed.

End ConversationStore.

(** ** The conversation route: sequences of requests *)
Section ConversationInvariant.

Import Conversation ConversationRuns.

Variable env : Env.

Implicit Types (w : World) (conv : ConversationState) (cid message : string).

Ltac run_route :=
  cbv [handleStartConversation handleSendMessage handleGetConversation
       handleEndConversation bind ret get_conversation set_conversation
       newMessage generateMessageId generateConversationId now random36];
  cbn [conversations reads].

Lemma nextStep_not_confirmation conv message :
  nextStep (generateAIResponse conv message) ≠ confirmation.
Proof.
  unfold generateAIResponse.
  destruct (currentStep conv);
    repeat match goal with
           | |- context [if ?c then _ else _] => destruct c
           end;
    discriminate.
Qed.

(** A send keeps the identifier of the conversation it answers. *)
Lemma handleSendMessage_keeps_id w cid conv message :
  conversations w !! cid = Some conv →
  ∃ conv',
    conversations (handleSendMessage env cid message w).2
      = <[cid := conv']> (conversations w)
    ∧ conversationId conv' = conversationId conv
    ∧ (∃ u a, messages conv' = messages conv ++ [u; a])
    ∧ currentStep conv' = nextStep (generateAIResponse conv message).
Proof.
  intros Hfound. run_route. rewrite Hfound.
  rewrite !generateAIResponse_push.
  destruct (ai_extractedRequirements (generateAIResponse conv message));
    (eexists; split; [reflexivity|]);
    cbn [conversationId messages currentStep push_message set_currentStep
         set_extractedRequirements];
    rewrite <- app_assoc; repeat split; eauto.
Qed.

Lemma well_formed_after_send w cid conv message :
  conversations w !! cid = Some conv →
  map_Forall well_formed (conversations w) →
  map_Forall well_formed (conversations (handleSendMessage env cid message w).2).
Proof.
  intros Hfound Hall.
  destruct (handleSendMessage_keeps_id w cid conv message Hfound)
    as (conv' & -> & Hid & (u & a & Hmsgs) & Hstep).
  apply map_Forall_insert_2; [|done].
  destruct (Hall cid conv Hfound) as (Hcid & (g & rest & Hhead & Hrole & Htext) & _).
  split; [congruence|]. split.
  - exists g, (rest ++ [u; a]). by rewrite Hmsgs, Hhead.
  - rewrite Hstep. apply nextStep_not_confirmation.
Qed.

Lemma well_formed_after_end w cid conv :
  conversations w !! cid = Some conv →
  map_Forall well_formed (conversations w) →
  map_Forall well_formed (conversations (handleEndConversation env cid w).2).
Proof.
  intros Hfound Hall.
  destruct (handleEndConversation_found env w cid conv Hfound)
    as (m & w' & Hend & Hstore & _).
  rewrite Hend. cbn [snd]. rewrite Hstore.
  apply map_Forall_insert_2; [|done].
  destruct (Hall cid conv Hfound) as (Hcid & (g & rest & Hhead & Hrole & Htext) & _).
  split; [done|]. split; [|done].
  exists g, (rest ++ [m]). cbn. by rewrite Hhead.
Qed.

Lemma well_formed_after_start (userId : string) w :
  map_Forall well_formed (conversations w) →
  map_Forall well_formed (conversations (handleStartConversation env userId w).2).
Proof.
  intros Hall.
  destruct (handleStartConversation_result env userId w)
    as (cid & g & st & w' & Hrun & Hstore & Hid & Hstep & Hmsgs & Hrole & Htext & _).
  rewrite Hrun. cbn [snd]. rewrite Hstore.
  apply map_Forall_insert_2; [|done].
  split; [done|]. split; [by exists g, []|]. by rewrite Hstep.
Qed.

Lemma well_formed_after_POST (b : Body) w :
  map_Forall well_formed (conversations w) →
  map_Forall well_formed (conversations (POST env b w).2).
Proof.
  intros Hall. unfold POST.
  repeat case_bool_decide.
  - by apply well_formed_after_start.
  - destruct (conversations w !! body_conversationId b) as [conv|] eqn:Hfound.
    + by eapply well_formed_after_send.
    + run_route. by rewrite Hfound.
  - run_route. by destruct (conversations w !! body_conversationId b).
  - destruct (conversations w !! body_conversationId b) as [conv|] eqn:Hfound.
    + by eapply well_formed_after_end.
    + run_route. by rewrite Hfound.
  - done.
Qed.

Lemma well_formed_after_run (bodies : list Body) : ∀ w,
  map_Forall well_formed (conversations w) →
  map_Forall well_formed (conversations (run env bodies w).2).
Proof.
  induction bodies as [|b bodies IH]; intros w Hall; [done|].
  cbn [run]. unfold bind at 1.
  pose proof (well_formed_after_POST b w Hall) as Hone.
  destruct (POST env b w) as [r w1]. unfold bind at 1.
  pose proof (IH w1 Hone) as Hrest.
  by destruct (run env bodies w1) as [rs w2].
Qed.

(** X9. Whatever requests the route has handled since the store was empty,
    every stored conversation sits under its own identifier, opens with the
    greeting of the assistant, and is not in the step [confirmation]. *)
Theorem store_stays_well_formed (bodies : list Body) :
  map_Forall well_formed (conversations (run env bodies empty_world).2).
Proof. apply well_formed_after_run. apply map_Forall_empty. Qed.

(** The summary of a history that opens with [g] and closes with [m]. *)
Lemma summary_of conv (g m : ConversationMessage) (middle : list ConversationMessage) :
  messages conv = g :: middle ++ [m] →
  role g = assistant → role m = assistant →
  generateConversationSummary conv
  = "Conversation with " +:+ pretty (List.length (List.filter is_user middle))
    +:+ " user messages and "
    +:+ pretty (List.length middle + 2 - List.length (List.filter is_user middle))
    +:+ " AI responses, lasting "
    +:+ pretty (round_seconds (timestamp m - timestamp g)) +:+ " seconds.".
Proof.
  intros Hmsgs Hg Hm. unfold generateConversationSummary. rewrite Hmsgs.
  change (g :: middle ++ [m]) with ((g :: middle) ++ [m]).
  rewrite last_snoc. cbn [app List.filter].
  rewrite (is_user_false g Hg).
  rewrite List.filter_app. cbn [List.filter]. rewrite (is_user_false m Hm).
  rewrite app_nil_r. cbn [List.length]. rewrite length_app. cbn [List.length].
  repeat f_equal. lia.
Qed.

(** X10. Ending a conversation after [start] and [N] sends reports [N] user
    messages and [N + 2] AI responses, lasting the rounded seconds between
    the greeting and the closing message. *)
Theorem summary_counts_the_turns (userId : string) (msgs : list string) w :
  ∃ cid g st w1 rs w2 m reqs summary w3,
    handleStartConversation env userId w = (StartOk cid g st, w1)
    ∧ send_all env cid msgs w1 = (rs, w2)
    ∧ handleEndConversation env cid w2 = (EndOk m reqs summary, w3)
    ∧ summary
      = "Conversation with " +:+ pretty (List.length msgs)
        +:+ " user messages and " +:+ pretty (List.length msgs + 2)
        +:+ " AI responses, lasting "
        +:+ pretty (round_seconds (timestamp m - timestamp g)) +:+ " seconds.".
Proof.
  destruct (handleStartConversation_result env userId w)
    as (cid & g & st & w1 & Hrun & Hstore & _ & _ & Hmsgs & Hrole & _).
  assert (conversations w1 !! cid = Some st) as Hfound.
  { rewrite Hstore. apply lookup_insert_eq. }
  destruct (send_all_history env msgs w1 cid st Hfound)
    as (rs & w2 & conv & tail & Hall & _ & _ & Hfound' & Hmsgs' & Hroles & Huser).
  destruct (handleEndConversation_found env w2 cid conv Hfound')
    as (m & w3 & Hend & _ & Hm & _).
  do 10 eexists. split; [exact Hrun|]. split; [exact Hall|].
  split; [exact Hend|].
  rewrite (summary_of _ g m tail); [|cbn; by rewrite Hmsgs', Hmsgs, <- app_assoc|done..].
  assert (List.length (List.filter is_user tail) = List.length msgs) as ->.
  { rewrite <- Huser. by rewrite length_fmap. }
  assert (List.length tail = 2 * List.length msgs) as ->.
  { apply (f_equal List.length) in Hroles. rewrite length_fmap in Hroles.
    rewrite Hroles. clear. induction msgs as [|? ? IH]; cbn in *; lia. }
  repeat f_equal. lia.
Qed.

End ConversationInvariant.

(** ** The requirements endpoint, continued *)
Section RequirementsMore.

Import Requirements.

Implicit Types (transcript : string) (history : list (string * string)) (rnd : Q).

Ltac split_on_keywords :=
  repeat match goal with
         | |- context [JS.includes ?s ?k] => destruct (JS.includes s k)
         end.

(** X11. The analysed platforms are [web], [android], [ios], each at most once
    and in this order, and the external APIs are taken from the four
    labels in the order of the tests. *)
Theorem analysed_lists_are_ordered transcript history rnd :
  let r := requirements (analyzeTranscriptForRequirements transcript history rnd) in
  platforms r `sublist_of` ["web"; "android"; "ios"]
  ∧ externalApis (technicalRequirements r)
    `sublist_of` ["payment processing"; "maps/geolocation";
                  "push notifications"; "social media"].
Proof.
  cbv zeta. split.
  - rewrite analyzed_platforms_cases. cbv zeta.
    destruct (_ || _), (_ || _), (_ || _); cbn;
      repeat first [apply sublist_nil | apply sublist_skip | apply sublist_cons].
  - unfold analyzeTranscriptForRequirements.
    cbn [requirements technicalRequirements externalApis].
    destruct (JS.includes _ "payment"), (JS.includes _ "map" || _),
             (JS.includes _ "notification"), (JS.includes _ "social" || _); cbn;
      repeat first [apply sublist_nil | apply sublist_skip | apply sublist_cons].
Qed.

Lemma coreFeatures_at_least_three transcript history rnd :
  3 ≤ List.length
        (coreFeatures (requirements
           (analyzeTranscriptForRequirements transcript history rnd))).
Proof.
  rewrite analyzed_coreFeatures. cbv zeta.
  unfold collectFeatures, featureKeywords. cbn [foldl].
  split_on_keywords; vm_compute; lia.
Qed.

Lemma num_ge_not_lt (a b : Q) : num_lt a b = false → num_ge a b = true.
Proof. unfold num_lt, num_ge. by destruct (a ?= b)%Q. Qed.

(** X12. On the endpoint the branches for unclear platforms and for incomplete
    requirements are never taken: every analysis has a platform and at
    least three features, so the response is a clarification when the
    drawn confidence is below 0.8 and a confirmation otherwise. *)
Theorem endpoint_answer_follows_confidence (body : ProcessRequirementsRequest) rnd :
  3 ≤ List.length (coreFeatures (resp_requirements (POST body rnd)))
  ∧ type (conversationResponse (POST body rnd))
    = (if num_lt rnd num_0_8 then clarification else confirmation).
Proof.
  split; [apply coreFeatures_at_least_three|].
  unfold POST. cbn [conversationResponse]. unfold generateConversationResponse.
  set (a := analyzeTranscriptForRequirements _ _ _).
  change (confidence a) with rnd.
  destruct (num_lt rnd num_0_8) eqn:Hlt; [done|].
  rewrite (num_ge_not_lt _ _ Hlt), andb_true_r.
  pose proof (coreFeatures_at_least_three (transcript body) (history body) rnd) as H3.
  fold a in H3. apply Nat.leb_le in H3. rewrite H3.
  assert (Nat.eqb (List.length (platforms (requirements a))) 0 = false) as ->; [|done].
  unfold a. rewrite analyzed_platforms_cases. cbv zeta.
  by destruct (_ || _), (_ || _), (_ || _).
Qed.

End RequirementsMore.

(** ** The generated name *)
Section AppNameFacts.

Import Generator.










End AppNameFacts.

(** ** The generated project *)
Section AppGeneratorFacts.

Import AppGenerator.

(** X14. Two generated files share a name exactly when the web platform is
    selected together with a mobile one: both the web files and the mobile
    files then bring a [package.json] for the same path. *)
Theorem file_names_clash_on_web_and_mobile
    (idea : string) (p : PlatformSelection) (bs : BuildSystem) :
  NoDup (filename <$> generatedFiles (generateAppFromIdea idea p bs))
  ↔ ¬ (web p = true ∧ (android p || ios p) = true).
Proof.
  unfold generateAppFromIdea, generateMobileFiles, Generator.generateWebFiles.
  cbn [generatedFiles].
  generalize (Generator.generateAppName idea). intros n.
  destruct (JS.includes (JS.toLowerCase idea) "todo"), p as [[] [] []], bs;
    cbn [web android ios orb andb];
    (split;
     [ intros Hnd [Hw Hm]; try done;
       apply (bool_decide_pack _) in Hnd; vm_compute in Hnd; exact Hnd
     | intros Hno;
       first [ apply (bool_decide_unpack _); vm_compute; exact I
             | destruct Hno; by split ] ]).
Qed.

(** X15. With the Capacitor build system and no web platform the project holds
    the Capacitor configuration and no EAS configuration, while the build
    command and the instructions are those of EAS. *)
Theorem capacitor_project_gets_eas_command (idea : string) (p : PlatformSelection) :
  web p = false →
  (android p || ios p) = true →
  let app := generateAppFromIdea idea p capacitor in
  "capacitor.config.json" ∈ (filename <$> generatedFiles app)
  ∧ ("eas.json" ∉ (filename <$> generatedFiles app))
  ∧ JS.startsWith (buildCommand app) "eas build --platform " = true
  ∧ instructions app
    = "Build with EAS: Run the build command and deploy to app stores.".
Proof.
  intros Hweb Hmobile. cbv zeta.
  unfold generateAppFromIdea, generateMobileFiles.
  cbn [generatedFiles buildCommand instructions].
  rewrite Hweb, Hmobile.
  generalize (Generator.generateAppName idea). intros n.
  destruct (JS.includes (JS.toLowerCase idea) "todo");
    (split; [apply (bool_decide_unpack _); vm_compute; exact I|]);
    (split; [intros Hin; apply (bool_decide_pack _) in Hin;
             vm_compute in Hin; exact Hin|]);
    (split; [|done]);
    by destruct (android p), (ios p).
Qed.

End AppGeneratorFacts.

(** ** The front page *)
Section HomeFacts.

Import AppGenerator Home.

Implicit Types (st : State) (l : list BuildStatus) (target : string).

Lemma elem_of_cons_bool (k x : string) (ps : list string) :
  bool_decide (k ∈ x :: ps) = bool_decide (x = k) || bool_decide (k ∈ ps).
Proof.
  apply eq_true_iff_eq.
  rewrite orb_true_iff, !bool_decide_eq_true, elem_of_cons.
  split; (intros [Heq|Hin]; [left; by symmetry|by right]).
Qed.

(** The platforms marked by a list of names. *)
Lemma foldl_markPlatform (ps : list string) : ∀ p : PlatformSelection,
  foldl markPlatform p ps
  = {| web := web p || bool_decide ("web" ∈ ps);
       android := android p || bool_decide ("android" ∈ ps);
       ios := ios p || bool_decide ("ios" ∈ ps) |}.
Proof.
  induction ps as [|x ps IH]; intros [w a i].
  - cbn. by rewrite !orb_false_r.
  - cbn [foldl]. rewrite IH, !elem_of_cons_bool. unfold markPlatform.
    repeat case_bool_decide; subst; try discriminate;
      cbn [web android ios orb]; by rewrite ?orb_true_r.
Qed.

(** X18. Taking over the requirements the endpoint extracted only adds
    platforms to the selection, and leaves at least one selected: the
    platform check of the generation then passes. *)
Theorem voice_requirements_select_a_platform
    st (transcript : string) (history : list (string * string)) (rnd : Q) :
  let r := Requirements.requirements
             (Requirements.analyzeTranscriptForRequirements transcript history rnd) in
  let st' := handleVoiceRequirementsExtracted (of_analysis r) st in
  web (platform st')
    = web (platform st) || bool_decide ("web" ∈ Requirements.platforms r)
  ∧ android (platform st')
    = android (platform st) || bool_decide ("android" ∈ Requirements.platforms r)
  ∧ ios (platform st')
    = ios (platform st) || bool_decide ("ios" ∈ Requirements.platforms r)
  ∧ JS.some (λ v, v) (values (platform st')) = true
  ∧ idea st' = idea st.
Proof.
  cbv zeta. unfold handleVoiceRequirementsExtracted, of_analysis.
  cbn [voice_platforms platform setPlatform idea]. rewrite foldl_markPlatform.
  cbn [web android ios]. repeat split.
  unfold values, JS.some. cbn [existsb web android ios].
  rewrite analyzed_platforms_cases. cbv zeta.
  destruct (JS.includes _ "web" || _), (JS.includes _ "android" || _),
           (JS.includes _ "ios" || _);
    destruct (platform st) as [[] [] []]; by vm_compute.
Qed.

Lemma setTasks_same st : setTasks (tasks st) st = st.
Proof. destruct st. reflexivity. Qed.

(** X22. Toggling a task twice gives back the state before. *)
Theorem toggle_twice_restores (taskId : nat) st :
  toggleTask taskId (toggleTask taskId st) = st.
Proof.
  unfold toggleTask. cbn [tasks setTasks].
  transitivity (setTasks (tasks st) st); [|apply setTasks_same].
  destruct st as [? ? ? ? ? ? ? ts ? ? ?]. unfold setTasks. cbn. f_equal.
  rewrite List.map_map. rewrite <- (List.map_id ts) at 2.
  apply List.map_ext. intros [i t d c pr]. cbn [id].
  destruct (bool_decide (i = taskId)) eqn:E; cbn [id]; rewrite E; [|done].
  cbn. by rewrite negb_involutive.
Qed.

Lemma tasks_after_add st :
  tasks (addTask st) = tasks st
  ∨ ∃ t, tasks (addTask st) = tasks st ++ [t] ∧ id t = List.length (tasks st) + 1.
Proof.
  unfold addTask. destruct (JSText.truthy _); [|by left].
  right. eexists. by split.
Qed.

(** X23. Whatever is typed, added and toggled in the task preview, the tasks
    are numbered 1, 2, 3, ... in the order of the list, so no two tasks
    share an identifier and a toggle changes one task. *)
Theorem task_ids_stay_consecutive (events : list TaskEvent) :
  let st := foldl taskStep initialState events in
  List.map id (tasks st) = seq 1 (List.length (tasks st)).
Proof.
  cbv zeta.
  assert (∀ st0, List.map id (tasks st0) = seq 1 (List.length (tasks st0)) →
          List.map id (tasks (foldl taskStep st0 events))
          = seq 1 (List.length (tasks (foldl taskStep st0 events)))) as Hinv.
  { induction events as [|e events IH]; intros st0 H0; [done|].
    cbn [foldl]. apply IH. destruct e as [text| |taskId]; cbn [taskStep].
    - done.
    - destruct (tasks_after_add st0) as [->|(t & -> & Hid)]; [done|].
      rewrite List.map_app, length_app, seq_app, H0. cbn. rewrite Hid.
      do 2 f_equal. lia.
    - unfold toggleTask. cbn [tasks setTasks].
      rewrite List.map_map, length_map, <- H0.
      apply List.map_ext. intros task. by case_bool_decide. }
  by apply Hinv.
Qed.

End HomeFacts.

(** ** The further properties at concrete inputs *)
Section MoreConversationExamples.

Import Conversation ConversationRuns.

Lemma get_returns_what_send_stored_witness :
  ∃ conv,
    conversations started_world !! sample_id = Some conv
    ∧ ∃ u a conv' flag w',
        handleSendMessage sample_env sample_id "Hello" started_world
          = (SendOk u a conv' flag, w')
        ∧ handleGetConversation sample_id w' = (GetOk conv', w').
Proof.
  eexists. split; [vm_compute; reflexivity|].
  eapply (get_returns_what_send_stored sample_env started_world sample_id).
  vm_compute; reflexivity.
Defined.

Lemma other_conversations_untouched_witness :
  "conv_other" ≠ sample_id
  ∧ conversations
      (handleSendMessage sample_env sample_id "Hello" started_world).2 !! "conv_other"
    = conversations started_world !! "conv_other".
Proof.
  split; [discriminate|].
  apply (other_conversations_untouched sample_env started_world sample_id
           "conv_other" "Hello").
  discriminate.
Defined.

Lemma end_appends_closing_message_witness :
  ∃ conv,
    conversations started_world !! sample_id = Some conv
    ∧ ∃ m summary w' conv',
        handleEndConversation sample_env sample_id started_world
          = (EndOk m (extractedRequirements conv) summary, w')
        ∧ conversations w' !! sample_id = Some conv'
        ∧ messages conv' = messages conv ++ [m]
        ∧ role m = assistant ∧ content m = closingText
        ∧ currentStep conv' = completion
        ∧ extractedRequirements conv' = extractedRequirements conv.
Proof.
  eexists. split; [vm_compute; reflexivity|].
  eapply (end_appends_closing_message sample_env started_world sample_id).
  vm_compute; reflexivity.
Defined.

Lemma history_is_append_only_witness :
  ∃ conv,
    conversations gathering_world !! sample_id = Some conv
    ∧ ∃ conv',
        conversations
          (handleSendMessage sample_env sample_id "web" gathering_world).2
          !! sample_id = Some conv'
        ∧ messages conv `prefix_of` messages conv'
        ∧ (is_Some (extractedRequirements conv) →
           is_Some (extractedRequirements conv')).
Proof.
  eexists. split; [vm_compute; reflexivity|].
  eapply (proj1 (history_is_append_only sample_env gathering_world sample_id
                   _ "web" _)).
  Unshelve. vm_compute; reflexivity.
Defined.

Lemma platform_answer_is_stored_witness :
  ∃ conv,
    conversations gathering_world !! sample_id = Some conv
    ∧ currentStep conv = requirement_gathering
    ∧ containsPlatformInfo (JS.toLowerCase "A Website, please") = true
    ∧ ∃ conv' r ps,
        stored sample_id
          (handleSendMessage sample_env sample_id "A Website, please" gathering_world)
          = Some conv'
        ∧ currentStep conv' = requirement_gathering
        ∧ extractedRequirements conv' = Some r
        ∧ r !! "platforms" = Some ps ∧ ps ≠ []
        ∧ r !! "features" = default ∅ (extractedRequirements conv) !! "features".
Proof.
  eexists. split; [vm_compute; reflexivity|]. split; [reflexivity|].
  split; [reflexivity|].
  eapply (platform_answer_is_stored sample_env gathering_world sample_id);
    [vm_compute; reflexivity|reflexivity|reflexivity].
Defined.

Lemma feature_answer_overwrites_features_witness :
  ∃ conv,
    conversations gathering_world !! sample_id = Some conv
    ∧ currentStep conv = requirement_gathering
    ∧ containsPlatformInfo (JS.toLowerCase "It should store data") = false
    ∧ containsFeatureInfo (JS.toLowerCase "It should store data") = true
    ∧ ∃ conv' r fs,
        stored sample_id
          (handleSendMessage sample_env sample_id "It should store data"
             gathering_world)
          = Some conv'
        ∧ currentStep conv' = clarification
        ∧ extractedRequirements conv' = Some r
        ∧ featureRequirements
            (analyzeUserMessage "It should store data" (context conv))
          = {[ "features" := fs ]}
        ∧ r !! "features" = Some fs
        ∧ r !! "platforms" = default ∅ (extractedRequirements conv) !! "platforms".
Proof.
  eexists. split; [vm_compute; reflexivity|]. split; [reflexivity|].
  split; [reflexivity|]. split; [reflexivity|].
  eapply (feature_answer_overwrites_features sample_env gathering_world sample_id);
    [vm_compute; reflexivity|reflexivity..].
Defined.

End MoreConversationExamples.

Section MoreHomeExamples.

Import AppGenerator Home.

Lemma capacitor_project_gets_eas_command_witness :
  let p := {| web := false; android := true; ios := true |} in
  web p = false ∧ (android p || ios p) = true
  ∧ "eas.json" ∉ (filename <$> generatedFiles
                    (generateAppFromIdea "A recipe box" p capacitor)).
Proof.
  cbv zeta. split; [reflexivity|]. split; [reflexivity|].
  apply (capacitor_project_gets_eas_command "A recipe box"
           {| web := false; android := true; ios := true |});
    reflexivity.
Defined.

End MoreHomeExamples.

(** ** The name of the application, on the text of the idea *)
Section PageNameFacts.

Import Text Page.

Lemma words_on_spaces_cons (s : jsstring) :
  ∃ w ws, words_on_spaces s = w :: ws.
Proof.
  induction s as [|c s (w & ws & IH)]; [by exists [], []|].
  unfold words_on_spaces in *. cbn [foldr]. rewrite IH.
  case_decide; eauto.
Qed.

(** [split(' ')] with a word begun returns the words of the rest, the
    first of them continuing the word begun. *)
Lemma split_go_words (s : jsstring) : ∀ cur,
  split_go cur s
  = match words_on_spaces s with
    | w :: ws => (reverse cur ++ w) :: ws
    | [] => [reverse cur]
    end.
Proof.
  induction s as [|c s IH]; intros cur.
  - cbn. by rewrite app_nil_r.
  - cbn [split_go]. unfold words_on_spaces. cbn [foldr].
    fold (words_on_spaces s).
    destruct (words_on_spaces_cons s) as (w & ws & Hw).
    destruct (N.eqb_spec c 32) as [->|Hc].
    + rewrite decide_True by done. rewrite IH, Hw. by rewrite app_nil_r.
    + rewrite decide_False by done. rewrite IH, Hw.
      by rewrite reverse_cons, <- app_assoc.
Qed.

Lemma split_space_words (s : jsstring) : split_space s = words_on_spaces s.
Proof.
  unfold split_space. rewrite split_go_words.
  by destruct (words_on_spaces_cons s) as (w & ws & ->).
Qed.

Lemma stop_word_iff (w : jsstring) : w ∈ stopWords ↔ is_stop_word w.
Proof.
  unfold stopWords, is_stop_word. rewrite !elem_of_cons, elem_of_nil. tauto.
Qed.

Lemma filter_survives (ws : list jsstring) :
  List.filter
    (λ word, (3 <? List.length word)%nat
             && negb (bool_decide (word ∈ stopWords))) ws
  = filter survives ws.
Proof.
  induction ws as [|w ws IH]; [done|].
  rewrite filter_cons. cbn [List.filter]. rewrite IH.
  destruct (decide (survives w)) as [[Hlen Hstop]|Hno].
  - apply Nat.ltb_lt in Hlen. rewrite Hlen.
    rewrite bool_decide_eq_false_2; [done|]. by rewrite stop_word_iff.
  - destruct (Nat.ltb_spec 3 (List.length w)) as [Hlen|Hlen]; [|done].
    destruct (bool_decide (w ∈ stopWords)) eqn:E; [done|].
    apply bool_decide_eq_false in E. rewrite stop_word_iff in E.
    destruct Hno. by split.
Qed.

Lemma take_two {A} (l : list A) : take 2 l = first_two l.
Proof. by destruct l as [|a [|b l]]. Qed.

Lemma join_no_separator (l : list jsstring) : join [] l = concat l.
Proof.
  induction l as [|x l IH]; [done|].
  destruct l as [|y l]; [cbn; by rewrite app_nil_r|].
  change (join [] (x :: y :: l)) with (x ++ [] ++ join [] (y :: l)).
  by rewrite IH.
Qed.

Lemma capitalize_first `{Builtins} (word : jsstring) :
  toUpperCase (charAt word 0) ++ slice_from word 1 = capitalize word.
Proof.
  destruct word as [|c r]; [|done].
  cbn. rewrite toUpperCase_ascii by constructor. done.
Qed.

Lemma generateAppName_spec `{Builtins} (idea : jsstring) :
  generateAppName idea = appName_spec idea.
Proof.
  unfold generateAppName, appName_spec.
  rewrite split_space_words, filter_survives, take_two.
  destruct (first_two _) as [|w ws]; [done|].
  change (Nat.eqb (List.length (w :: ws)) 0) with false. cbv iota.
  rewrite join_no_separator. f_equal.
  apply list_eq_Forall2, Forall2_fmap, Forall_Forall2_diag, Forall_forall.
  intros word _. apply capitalize_first.
Qed.

Lemma ascii_literal (s : string) :
  bool_decide (is_ascii (lit s)) = true → is_ascii (lit s).
Proof. apply bool_decide_eq_true_1. Qed.

Lemma example_name `{Builtins} :
  generateAppName (lit "A simple todo app") = lit "SimpleTodo".
Proof.
  unfold generateAppName.
  rewrite (toLowerCase_ascii (lit "A simple todo app"))
    by (apply ascii_literal; by vm_compute).
  set (nameWords := take 2 _).
  assert (nameWords = [lit "simple"; lit "todo"]) as -> by by vm_compute.
  cbn [List.length Nat.eqb List.map join].
  change (charAt (lit "simple") 0) with (lit "s").
  change (charAt (lit "todo") 0) with (lit "t").
  rewrite !toUpperCase_ascii by (apply ascii_literal; by vm_compute).
  by vm_compute.
Qed.

(** An idea whose lower-cased words have three characters at most falls
    back to [MyApp], whatever their letters: here [mon] and a word made of
    U+00E9, [t], U+00E9. *)
Lemma short_words_fall_back `{Builtins} (idea : jsstring) :
  toLowerCase idea = lit "mon " ++ [233; 116; 233]%N →
  generateAppName idea = lit "MyApp".
Proof. intros Hlower. unfold generateAppName. rewrite Hlower. reflexivity. Qed.

(** C8. The application name is the one the design description derives,
    for every idea and whatever the case mappings do outside ASCII: the
    idea is lower-cased and split on spaces, the words longer than three
    characters that are no stop words survive, the first two of them are
    capitalised and concatenated, and [MyApp] stands in when none survives.
    The idea [A simple todo app] is named [SimpleTodo] and its web files
    start with the todo page. *)
Theorem generateAppName_refines :
  (∀ (B : Builtins) (idea : jsstring), generateAppName idea = appName_spec idea)
  ∧ (∀ B : Builtins,
       generateAppName (lit "A simple todo app") = lit "SimpleTodo"
       ∧ content <$> head (generateWebFiles (lit "A simple todo app")
                             (generateAppName (lit "A simple todo app")))
         = Some (WebTodoPage (lit "SimpleTodo"))).
Proof.
  split; [intros B idea; apply generateAppName_spec|].
  intros B. split; [apply example_name|].
  rewrite example_name. unfold generateWebFiles.
  rewrite (toLowerCase_ascii (lit "A simple todo app"))
    by (apply ascii_literal; by vm_compute).
  by vm_compute.
Qed.

End PageNameFacts.

(** ** Generation and builds, on the text of the idea *)
Section PageFacts.

Import Text Page.
Import AppGenerator (BuildSystem, eas, capacitor, PlatformSelection, web, android, ios).

Context `{Builtins}.

Implicit Types (st : State) (l : list BuildStatus) (target : jsstring)
  (app : GeneratedApp).

Lemma truthy_nonempty (s : jsstring) : s ≠ [] → truthy s = true.
Proof. by destruct s. Qed.

Lemma some_platform (p : PlatformSelection) :
  existsb (λ v, v) (values p) = web p || android p || ios p.
Proof. unfold values. cbn. by rewrite orb_false_r, orb_assoc. Qed.

(** X16. An idea that is blank after [trim], or an empty platform
    selection, is rejected: the destructive toast [Missing Information] is
    shown and neither the generated application nor the build statuses
    nor the preview mode change. *)
Theorem generate_rejects_incomplete_input st :
  trim (idea st) = []
  ∨ (web (platform st) || android (platform st) || ios (platform st)) = false →
  let st' := handleGenerate st in
  generatedApp st' = generatedApp st
  ∧ buildStatuses st' = buildStatuses st
  ∧ previewMode st' = previewMode st
  ∧ isGenerating st' = isGenerating st
  ∧ toasts st'
    = toasts st
      ++ [ {| title := lit "Missing Information";
              description :=
                lit "Please provide your app idea and select at least one platform.";
              variant := Some (lit "destructive") |} ].
Proof.
  intros Hbad. cbv zeta. unfold handleGenerate. rewrite some_platform.
  assert (negb (truthy (trim (idea st)))
          || negb (web (platform st) || android (platform st) || ios (platform st))
          = true) as ->; [|done].
  destruct Hbad as [-> | ->]; [done|apply orb_true_r].
Qed.

Lemma generate_ready st :
  trim (idea st) ≠ [] →
  (web (platform st) || android (platform st) || ios (platform st)) = true →
  let app := generateAppFromIdea (idea st) (platform st) (buildSystem st) in
  generatedApp (handleGenerate st) = Some app
  ∧ buildStatuses (handleGenerate st) = List.map pendingBuild (platforms app)
  ∧ previewMode (handleGenerate st) = true
  ∧ isGenerating (handleGenerate st) = false
  ∧ toasts (handleGenerate st)
    = toasts st
      ++ [ {| title := lit "App Generated Successfully!";
              description :=
                lit "Your " ++ name app ++ lit " is ready for preview and build.";
              variant := None |} ].
Proof.
  intros Hidea Hsome. cbv zeta. unfold handleGenerate.
  rewrite some_platform, (truthy_nonempty _ Hidea), Hsome.
  by cbn [negb orb].
Qed.

(** The platforms of a generated application are those selected, in the
    order [web], [android], [ios]. *)
Lemma generated_platforms (idea : jsstring) (p : PlatformSelection) (bs : BuildSystem) :
  platforms (generateAppFromIdea idea p bs)
  = (if web p then [lit "web"] else [])
    ++ (if android p then [lit "android"] else [])
    ++ (if ios p then [lit "ios"] else []).
Proof. by destruct p as [[] [] []]. Qed.

(** X17. With an idea that is not blank after [trim] and a platform
    selected, generation stores the application generated from the idea,
    which has platforms and files, and one pending build at progress 0 for
    each of its platforms, in their order; the preview is switched on and
    the success toast is shown. *)
Theorem generate_prepares_pending_builds st :
  trim (idea st) ≠ [] →
  (web (platform st) || android (platform st) || ios (platform st)) = true →
  let st' := handleGenerate st in
  let app := generateAppFromIdea (idea st) (platform st) (buildSystem st) in
  generatedApp st' = Some app
  ∧ platforms app ≠ []
  ∧ generatedFiles app ≠ []
  ∧ buildStatuses st'
    = List.map (λ p, {| build_platform := p; status := pending;
                        downloadUrl := None; progress := 0 |})
               (platforms app)
  ∧ previewMode st' = true
  ∧ isGenerating st' = false
  ∧ toasts st'
    = toasts st
      ++ [ {| title := lit "App Generated Successfully!";
              description :=
                lit "Your " ++ name app ++ lit " is ready for preview and build.";
              variant := None |} ].
Proof.
  intros Hidea Hsome. cbv zeta.
  destruct (generate_ready st Hidea Hsome) as (Happ & Hst & Hprev & Hgen & Htoast).
  repeat split; try done.
  - rewrite generated_platforms.
    destruct (platform st) as [[] [] []]; cbn in *; done.
  - unfold generateAppFromIdea, generateMobileFiles, generateWebFiles.
    cbn [generatedFiles].
    destruct (platform st) as [[] [] []], (buildSystem st),
             (includes (toLowerCase (idea st)) (lit "todo")); cbn in *; done.
Qed.

End PageFacts.

(** ** The simulated builds *)
Section BuildFacts.

Import Text Page.
Import AppGenerator (BuildSystem, eas, capacitor, PlatformSelection, web, android, ios).

Implicit Types (st : State) (l : list BuildStatus) (target : jsstring)
  (app : GeneratedApp).


Lemma setBuildStatuses_foldl (us : list (list BuildStatus → list BuildStatus)) :
  ∀ st,
    buildStatuses (foldl (λ s u, setBuildStatuses u s) st us)
    = foldl (λ l u, u l) (buildStatuses st) us
    ∧ generatedApp (foldl (λ s u, setBuildStatuses u s) st us) = generatedApp st
    ∧ toasts (foldl (λ s u, setBuildStatuses u s) st us) = toasts st.
Proof.
  induction us as [|u us IH]; intros st; [done|].
  cbn [foldl]. destruct (IH (setBuildStatuses u st)) as (-> & -> & ->). done.
Qed.

(** The steps of a build leave the entries of its platform building at
    progress 100. *)
Lemma progress_steps target l :
  foldl (λ l u, u l) l (progressUpdates target) = forTarget target stalled l.
Proof.
  unfold progressUpdates, buildSteps. cbn [List.map foldl fst].
  unfold forTarget. rewrite !List.map_map. apply List.map_ext. intros s.
  destruct (bool_decide (build_platform s = target)) eqn:E;
    repeat (cbn [build_platform beginBuild withProgress]; rewrite ?E);
    reflexivity.
Qed.

Lemma forTarget_twice target (f g : BuildStatus → BuildStatus) l :
  (∀ s, build_platform (g s) = build_platform s) →
  forTarget target f (forTarget target g l) = forTarget target (λ s, f (g s)) l.
Proof.
  intros Hg. unfold forTarget. rewrite List.map_map. apply List.map_ext.
  intros s. destruct (bool_decide (build_platform s = target)) eqn:E.
  - by rewrite Hg, E.
  - by rewrite E.
Qed.

(** What [startBuild] returns or throws, in one equation. *)
Lemma startBuild_outcome app target (now : Z) st :
  generatedApp st = Some app →
  let info := {| appName := name app; targetPlatform := target; buildDate := now |} in
  ∃ st',
    startBuild target now st
      = (if btoa_throws info then Threw st' else Returned st')
    ∧ buildStatuses st'
      = forTarget target (if btoa_throws info then stalled else finished info)
                  (buildStatuses st)
    ∧ toasts st'
      = toasts st ++ (if btoa_throws info then [] else [buildCompleted target])
    ∧ generatedApp st' = Some app.
Proof.
  intros Happ info. unfold startBuild. rewrite Happ. fold info.
  destruct (setBuildStatuses_foldl (progressUpdates target) st) as (Hb & Hg & Ht).
  rewrite progress_steps in Hb.
  destruct (btoa_throws info).
  - eexists. split; [reflexivity|]. rewrite Hb, Ht, Hg, app_nil_r. done.
  - eexists. split; [reflexivity|].
    cbn [buildStatuses toasts generatedApp toast setBuildStatuses].
    rewrite Hb, Ht, Hg. split; [|done].
    rewrite forTarget_twice by done. done.
Qed.


(** X20. [startBuild] without a generated application changes nothing.
    With one, and a download that can be encoded, it returns with every
    entry of its platform completed at progress 100 holding the download of
    this build, and shows the toast [Build Completed!].  When the name of
    the application or the platform holds a character [btoa] refuses, it
    throws after the last step: the entries of its platform stay building
    at progress 100 and no toast is shown.  The other entries, the order
    and the number of entries are as they were in each case. *)
Theorem build_completes_its_platform_only target (now : Z) st :
  match generatedApp st with
  | None => startBuild target now st = Returned st
  | Some app =>
      let info := {| appName := name app; targetPlatform := target;
                     buildDate := now |} in
      ∃ st',
        (if outside_latin1 (name app) || outside_latin1 target
         then startBuild target now st = Threw st'
              ∧ buildStatuses st'
                = List.map
                    (λ s, if bool_decide (build_platform s = target)
                          then {| build_platform := build_platform s;
                                  status := building;
                                  downloadUrl := downloadUrl s;
                                  progress := 100 |}
                          else s)
                    (buildStatuses st)
              ∧ toasts st' = toasts st
         else startBuild target now st = Returned st'
              ∧ buildStatuses st'
                = List.map
                    (λ s, if bool_decide (build_platform s = target)
                          then {| build_platform := build_platform s;
                                  status := completed;
                                  downloadUrl := Some info;
                                  progress := 100 |}
                          else s)
                    (buildStatuses st)
              ∧ toasts st' = toasts st ++ [buildCompleted target])
        ∧ List.map build_platform (buildStatuses st')
          = List.map build_platform (buildStatuses st)
  end.
Proof.
  destruct (generatedApp st) as [app|] eqn:Happ; [|by unfold startBuild; rewrite Happ].
  cbv zeta.
  destruct (startBuild_outcome app target now st Happ) as (st' & Hrun & Hb & Ht & _).
  unfold btoa_throws in *. cbn [appName targetPlatform] in *.
  exists st'.
  assert (List.map build_platform (buildStatuses st')
          = List.map build_platform (buildStatuses st)) as Hnames.
  { rewrite Hb. unfold forTarget. rewrite List.map_map. apply List.map_ext.
    intros s. case_bool_decide; [|done].
    by destruct (outside_latin1 (name app) || outside_latin1 target). }
  split; [|exact Hnames].
  destruct (outside_latin1 (name app) || outside_latin1 target);
    rewrite Hrun, Hb, Ht, ?app_nil_r; done.
Qed.

End BuildFacts.

(** ** Building all platforms after a generation *)
Section AllBuildsFacts.

Import Text Page.
Import AppGenerator (BuildSystem, eas, capacitor, PlatformSelection, web, android, ios).

Context `{Builtins}.

Implicit Types (st : State) (l : list BuildStatus) (target : jsstring)
  (app : GeneratedApp).

(** The platforms of a generated application are distinct ASCII names. *)
Lemma generated_platforms_distinct (idea : jsstring) (p : PlatformSelection)
    (bs : BuildSystem) :
  NoDup (platforms (generateAppFromIdea idea p bs))
  ∧ Forall (λ q, outside_latin1 q = false) (platforms (generateAppFromIdea idea p bs)).
Proof.
  rewrite generated_platforms.
  destruct p as [[] [] []]; cbn [web android ios List.app app]; split;
    first [ apply (bool_decide_unpack _); by vm_compute
          | repeat (constructor; [by vm_compute|]); constructor ].
Qed.

Lemma forTarget_absent target (f : BuildStatus → BuildStatus) (ps : list jsstring) :
  target ∉ ps →
  forTarget target f (List.map pendingBuild ps) = List.map pendingBuild ps.
Proof.
  intros Hno. unfold forTarget. rewrite List.map_map. apply List.map_ext_in.
  intros q Hq. cbn. rewrite bool_decide_eq_false_2; [done|].
  intros ->. by apply Hno, list_elem_of_In.
Qed.

Lemma buildEach_completes app (clock : nat → Z) (ps : list jsstring) :
  outside_latin1 (name app) = false →
  Forall (λ q, outside_latin1 q = false) ps →
  ∀ (i : nat) st,
    generatedApp st = Some app →
    Forall (λ s, (status s = completed ∧ progress s = 100 ∧ is_Some (downloadUrl s))
                 ∨ build_platform s ∈ ps)
           (buildStatuses st) →
    ∃ st',
      buildEach clock i ps st = Returned st'
      ∧ Forall (λ s, status s = completed ∧ progress s = 100
                     ∧ is_Some (downloadUrl s))
               (buildStatuses st')
      ∧ List.map build_platform (buildStatuses st')
        = List.map build_platform (buildStatuses st).
Proof.
  intros Hname. induction ps as [|p ps IH]; intros Hps i st Happ Hall.
  - exists st. split; [done|]. split; [|done].
    eapply Forall_impl; [exact Hall|].
    intros s [Hdone|Hin]; [done|]. by apply elem_of_nil in Hin.
  - apply Forall_cons in Hps as [Hp Hps]. cbn [buildEach].
    destruct (startBuild_outcome app p (clock i) st Happ)
      as (st1 & Hrun & Hb & _ & Happ1).
    unfold btoa_throws in Hrun, Hb. cbn [appName targetPlatform] in Hrun, Hb.
    rewrite Hname, Hp in Hrun, Hb. cbn [orb] in Hrun, Hb. rewrite Hrun.
    destruct (IH Hps (S i) st1 Happ1) as (st' & Hrest & Hdone & Hnames).
    + rewrite Hb. unfold forTarget. apply Forall_forall. intros s' Hin.
      apply list_elem_of_In, in_map_iff in Hin as (s & <- & Hs).
      apply list_elem_of_In in Hs.
      rewrite Forall_forall in Hall. specialize (Hall s Hs).
      case_bool_decide as Hq.
      * left. cbn. repeat split; eauto.
      * destruct Hall as [Hd|Hin]; [by left|right].
        apply elem_of_cons in Hin as [Heq|Hin]; [congruence|done].
    + exists st'. split; [done|]. split; [done|].
      rewrite Hnames, Hb. unfold forTarget.
      rewrite List.map_map. apply List.map_ext. intros s. by case_bool_decide.
Qed.

(** X21. After a successful generation [startAllBuilds] builds the
    platforms of the application in their order.  When the name of the
    application can be encoded it returns with one entry per platform, each
    completed at progress 100 with a download.  When the name holds a
    character [btoa] refuses, the first build throws and ends the loop: the
    first entry stays building at progress 100 and the others stay
    pending. *)
Theorem all_builds_complete st (clock : nat → Z) :
  trim (idea st) ≠ [] →
  (web (platform st) || android (platform st) || ios (platform st)) = true →
  let app := generateAppFromIdea (idea st) (platform st) (buildSystem st) in
  ∃ st',
    (if outside_latin1 (name app)
     then startAllBuilds clock (handleGenerate st) = Threw st'
          ∧ buildStatuses st'
            = match platforms app with
              | p :: rest =>
                  {| build_platform := p; status := building;
                     downloadUrl := None; progress := 100 |}
                  :: List.map (λ q, {| build_platform := q; status := pending;
                                       downloadUrl := None; progress := 0 |})
                              rest
              | [] => []
              end
     else startAllBuilds clock (handleGenerate st) = Returned st'
          ∧ Forall (λ s, status s = completed ∧ progress s = 100
                         ∧ is_Some (downloadUrl s))
                   (buildStatuses st'))
    ∧ List.map build_platform (buildStatuses st') = platforms app.
Proof.
  intros Hidea Hsome. cbv zeta.
  destruct (generate_ready st Hidea Hsome) as (Happ & Hst & _).
  set (app := generateAppFromIdea _ _ _) in *.
  destruct (generated_platforms_distinct (idea st) (platform st) (buildSystem st))
    as [Hnodup Hascii].
  fold app in Hnodup, Hascii.
  unfold startAllBuilds. rewrite Happ.
  destruct (outside_latin1 (name app)) eqn:Hname.
  - destruct (platforms app) as [|p rest] eqn:Hps.
    { exfalso. unfold app in Hps. rewrite generated_platforms in Hps.
      destruct (platform st) as [[] [] []]; cbn in *; done. }
    cbn [buildEach].
    destruct (startBuild_outcome app p (clock 0) (handleGenerate st) Happ)
      as (st1 & Hrun & Hb & _).
    unfold btoa_throws in Hrun, Hb. cbn [appName targetPlatform] in Hrun, Hb.
    rewrite Hname in Hrun, Hb. cbn [orb] in Hrun, Hb. rewrite Hrun.
    exists st1. rewrite Hb, Hst.
    apply NoDup_cons in Hnodup as [Hfresh _].
    cbn [List.map]. unfold forTarget at 1 2. cbn [List.map build_platform pendingBuild].
    rewrite bool_decide_eq_true_2 by done.
    fold (forTarget p stalled (List.map pendingBuild rest)).
    rewrite (forTarget_absent p stalled rest Hfresh).
    split; [done|]. cbn. f_equal. rewrite List.map_map. apply List.map_id.
  - destruct (buildEach_completes app clock (platforms app) Hname Hascii 0
                (handleGenerate st) Happ) as (st' & Hrun & Hdone & Hnames).
    + rewrite Hst. apply Forall_forall. intros s Hin.
      apply list_elem_of_In, in_map_iff in Hin as (q & <- & Hq).
      right. cbn. by apply list_elem_of_In.
    + exists st'. split; [done|].
      rewrite Hnames, Hst, List.map_map. cbn. apply List.map_id.
Qed.

End AllBuildsFacts.

(** ** Examples on the front page *)
Section PageExamples.

Import Text Page.
Import AppGenerator (BuildSystem, eas, capacitor, PlatformSelection, web, android, ios).

#[local] Existing Instance ascii_builtins.

Lemma generate_rejects_incomplete_input_witness :
  (trim (idea blank_state) = []
   ∨ (web (platform blank_state) || android (platform blank_state)
      || ios (platform blank_state)) = false)
  ∧ generatedApp (handleGenerate blank_state) = None
  ∧ List.map title (toasts (handleGenerate blank_state))
    = [lit "Missing Information"].
Proof.
  split; [left; reflexivity|].
  destruct (generate_rejects_incomplete_input blank_state) as (Happ & _ & _ & _ & Ht);
    [left; reflexivity|].
  split; [exact Happ|]. rewrite Ht. reflexivity.
Defined.

Lemma generate_prepares_pending_builds_witness :
  trim (idea sample_state) ≠ []
  ∧ (web (platform sample_state) || android (platform sample_state)
     || ios (platform sample_state)) = true
  ∧ buildStatuses (handleGenerate sample_state)
    = [ {| build_platform := lit "web"; status := pending;
           downloadUrl := None; progress := 0 |};
        {| build_platform := lit "android"; status := pending;
           downloadUrl := None; progress := 0 |} ].
Proof.
  split; [vm_compute; discriminate|]. split; [reflexivity|].
  destruct (generate_prepares_pending_builds sample_state)
    as (_ & _ & _ & Hb & _); [vm_compute; discriminate|reflexivity|].
  rewrite Hb. reflexivity.
Defined.


Lemma all_builds_complete_witness :
  trim (idea sample_state) ≠ []
  ∧ (web (platform sample_state) || android (platform sample_state)
     || ios (platform sample_state)) = true
  ∧ ∃ st',
      startAllBuilds sample_clock (handleGenerate sample_state) = Returned st'
      ∧ List.map (λ s, (build_platform s, status s, progress s)) (buildStatuses st')
        = [ (lit "web", completed, 100); (lit "android", completed, 100) ].
Proof.
  split; [vm_compute; discriminate|]. split; [reflexivity|].
  destruct (all_builds_complete sample_state sample_clock) as (st' & Hrun & _);
    [vm_compute; discriminate|reflexivity|].
  vm_compute in Hrun. destruct Hrun as [Hrun _].
  exists st'. split; [exact Hrun|]. injection Hrun as <-. reflexivity.
Defined.

(** The build of an application with a name in Cyrillic letters throws: its
    entry stays building at progress 100 and no toast is shown. *)
Example build_throws_on_cyrillic_name :
  ∃ st',
    startBuild (lit "web") 1700000000000 cyrillic_state = Threw st'
    ∧ buildStatuses st'
      = [ {| build_platform := lit "web"; status := building;
             downloadUrl := None; progress := 100 |} ]
    ∧ toasts st' = [].
Proof. eexists. split; [reflexivity|]. split; reflexivity. Qed.

End PageExamples.
